(** * huggingface_Interface3.py: a shallow embedding and its contract

    The module wraps a pretrained-model toolkit.  Everything it calls
    (torch, transformers, nltk) is taken as an environment of functions
    that may raise; the module's own control flow is written in a small
    monad that records, in program order, every print and every call made
    to a collaborator together with the keyword arguments of the call. *)

From Stdlib Require Import List String Ascii ZArith Bool Lia Arith DecimalString
  DecimalPos.
Import ListNotations.
Local Open Scope string_scope.
Local Open Scope Z_scope.

(** ** Python strings and builtins

    Strings are byte strings.  [lower] maps the ASCII capitals and leaves
    every other byte alone, [len] counts bytes: for ASCII text both are
    what [str.lower] and [len] compute. *)

Module Py.

Definition lower_ascii (c : ascii) : ascii :=
  let n := nat_of_ascii c in
  if ((65 <=? n) && (n <=? 90))%nat then ascii_of_nat (n + 32) else c.

Fixpoint lower (s : string) : string :=
  match s with
  | EmptyString => EmptyString
  | String c r => String (lower_ascii c) (lower r)
  end.

Definition startswith (s p : string) : bool := String.prefix p s.

Definition len (s : string) : Z := Z.of_nat (String.length s).

(** [needle in s] *)
Fixpoint contains (needle s : string) : bool :=
  String.prefix needle s ||
  match s with
  | EmptyString => false
  | String _ r => contains needle r
  end.

(** [s.split(sep)] for a one-character separator: never empty. *)
Fixpoint split (sep : ascii) (s : string) : list string :=
  match s with
  | EmptyString => [EmptyString]
  | String c r =>
      if Ascii.eqb c sep then EmptyString :: split sep r
      else match split sep r with
           | hd :: tl => String c hd :: tl
           | [] => [String c EmptyString]
           end
  end.

Fixpoint rev_onto (s acc : string) : string :=
  match s with
  | EmptyString => acc
  | String c r => rev_onto r (String c acc)
  end.

Definition is_space (c : ascii) : bool :=
  let n := nat_of_ascii c in
  (((9 <=? n) && (n <=? 13)) || ((28 <=? n) && (n <=? 32)))%nat.

Fixpoint lstrip (s : string) : string :=
  match s with
  | EmptyString => EmptyString
  | String c r => if is_space c then lstrip r else s
  end.

Definition strip (s : string) : string :=
  lstrip (rev_onto (lstrip (rev_onto s EmptyString)) EmptyString).

Definition digit_val (c : ascii) : option Z :=
  let n := nat_of_ascii c in
  if ((48 <=? n) && (n <=? 57))%nat then Some (Z.of_nat (n - 48)) else None.

(** Decimal digits, a single underscore allowed between two digits. *)
Fixpoint parse_digits (s : string) (acc : Z) (after_digit : bool) : option Z :=
  match s with
  | EmptyString => if after_digit then Some acc else None
  | String c r =>
      match digit_val c with
      | Some d => parse_digits r (10 * acc + d) true
      | None =>
          if Ascii.eqb c "_" && after_digit then parse_digits r acc false
          else None
      end
  end.

(** [int(s)] on a string: [None] stands for ValueError. *)
Definition int (s : string) : option Z :=
  match strip s with
  | String "+" r => parse_digits r 0 false
  | String "-" r => option_map Z.opp (parse_digits r 0 false)
  | t => parse_digits t 0 false
  end.

(** ["{}".format(n)] for an integer. *)
Definition str_of_Z (n : Z) : string := NilZero.string_of_int (Z.to_int n).

(** [l[i]] on a list or tuple: negative indices count from the end,
    [None] stands for IndexError. *)
Definition getitem {A : Type} (l : list A) (i : Z) : option A :=
  let n := Z.of_nat (List.length l) in
  if (0 <=? i) && (i <? n) then nth_error l (Z.to_nat i)
  else if (- n <=? i) && (i <? 0) then nth_error l (Z.to_nat (n + i))
  else None.

(** [list(range(n))] *)
Definition range (n : nat) : list Z := map Z.of_nat (seq 0 n).

End Py.

(** ** Exceptions, events and the execution monad *)

Inductive exn : Type :=
| IndexError
| ValueError
| SystemExit
| ToolkitError (what : string).

(** Keyword arguments of a tokenizer call; an argument the call site does
    not pass has the toolkit's default. *)
Record tok_kwargs : Type := {
  kw_padding : bool;
  kw_truncation : bool;
  kw_add_special_tokens : bool;
  kw_max_length : option Z
}.

Inductive event : Type :=
| EvPrint (line : string)
| EvSetVerbosity (level : string)
| EvSetEnviron (key value : string)
| EvImportMegatron
| EvAutoConfig (name : string) (output_hidden_states : bool)
| EvAutoTokenizer (name : string)
| EvAutoModel (name : string)
| EvBertTokenizer (checkpoint : string)
| EvMegatronModel (name : string)
| EvModelTo (device : string)
| EvTensorTo (device : Z)
| EvSentTokenize (text : string)
| EvTokenizerCall (sentences : list string) (kw : tok_kwargs)
| EvEncode (text : string) (kw : tok_kwargs)
| EvConvertIds (ids : list Z)
| EvForward (input_ids : list (list Z)) (attention_mask : option (list (list Z)))
| EvPipeline (task : string) (model : option string) (with_tokenizer : bool)
             (device : option Z)
| EvRunPipeline (texts : list string).

Inductive outcome (A : Type) : Type :=
| Ret (a : A)
| Raise (e : exn).
Arguments Ret {A} a.
Arguments Raise {A} e.

(** A run: the events it performed, then how it ended. *)
Definition M (A : Type) : Type := (list event * outcome A)%type.

Definition ret {A} (a : A) : M A := ([], Ret a).
Definition raise {A} (e : exn) : M A := ([], Raise e).
Definition emit (ev : event) : M unit := ([ev], Ret tt).
Definition print (line : string) : M unit := emit (EvPrint line).

Definition trace {A} (m : M A) : list event := fst m.
Definition result {A} (m : M A) : outcome A := snd m.

Definition bind {A B} (m : M A) (f : A -> M B) : M B :=
  match result m with
  | Ret a => let r := f a in ((trace m ++ trace r)%list, result r)
  | Raise e => (trace m, Raise e)
  end.

(** A call to a collaborator: the call is recorded, then it returns or raises. *)
Definition call {A} (ev : event) (r : outcome A) : M A := ([ev], r).

(** [try: body  except: handler] with a bare except. *)
Definition try_except {A} (body : M A) (handler : M A) : M A :=
  match result body with
  | Ret a => body
  | Raise _ => ((trace body ++ trace handler)%list, result handler)
  end.

Definition of_option {A} (e : exn) (o : option A) : M A :=
  match o with
  | Some a => ret a
  | None => raise e
  end.

Declare Scope py_scope.
Delimit Scope py_scope with py.
Notation "x <- c1 ;; c2" := (bind c1 (fun x => c2))
  (at level 100, c1 at next level, right associativity) : py_scope.
Notation "' p <- c1 ;; c2" := (bind c1 (fun p => c2))
  (at level 100, p pattern, c1 at next level, right associativity) : py_scope.
Notation "c1 ;;; c2" := (bind c1 (fun _ => c2))
  (at level 100, right associativity) : py_scope.
Local Open Scope py_scope.

Fixpoint mapM {A B} (f : A -> M B) (l : list A) : M (list B) :=
  match l with
  | [] => ret []
  | a :: r => b <- f a ;; bs <- mapM f r ;; ret (b :: bs)
  end.

(** ** torch.cuda as seen by the module *)

Record torch_cuda : Type := {
  is_available : bool;
  device_count : nat
}.

(** ** set_logging_level, set_tokenizer_parallelism (lines 22-50) *)

Definition set_logging_level (logging_level : string) : M unit :=
  let logging_level := Py.lower logging_level in
  if negb ((logging_level =? "warn") || (logging_level =? "warning"))%string then
    if (logging_level =? "critical")%string then emit (EvSetVerbosity "critical")
    else if (logging_level =? "error")%string then emit (EvSetVerbosity "error")
    else if (logging_level =? "info")%string then emit (EvSetVerbosity "info")
    else if (logging_level =? "debug")%string then emit (EvSetVerbosity "debug")
    else
      print ("Warning: Logging level " ++ logging_level ++ " is not an option.") ;;;
      print (String (ascii_of_nat 9) "Use one of: ")
  else ret tt.

Definition set_tokenizer_parallelism (tokenizer_parallelism : bool) : M unit :=
  if tokenizer_parallelism then emit (EvSetEnviron "TOKENIZERS_PARALLELISM" "true")
  else emit (EvSetEnviron "TOKENIZERS_PARALLELISM" "false").

(** ** get_device (lines 52-94) *)

Definition known_prefix (device : string) : bool :=
  Py.startswith device "cpu" || Py.startswith device "gpu" || Py.startswith device "cuda".

Definition device_help : list string :=
  [ "device must be 'cpu', 'gpu', 'cuda', or of the form 'gpu:k' or 'cuda:k'";
    String (ascii_of_nat 9) "where k is an integer value for the device";
    "Trying CPUs" ].

Definition cuda_warning : string := "Unable to use CUDA (GPU), using CPU".

Definition get_device (cuda : torch_cuda) (device : string) : M (string * Z) :=
  let device := Py.lower device in
  device <- (if negb (Py.startswith device "cpu") && negb (Py.startswith device "gpu")
                && negb (Py.startswith device "cuda")
             then
               print "device must be 'cpu', 'gpu', 'cuda', or of the form 'gpu:k' or 'cuda:k'" ;;;
               print (String (ascii_of_nat 9) "where k is an integer value for the device") ;;;
               print "Trying CPUs" ;;;
               ret "cpu"
             else ret device) ;;
  let device_num := -1 in
  if negb (device =? "cpu")%string then
    let attached := false in
    '(device_num, attached) <-
       (if is_available cuda then
          if ((device =? "gpu") || (device =? "cuda"))%string then
            n <- of_option IndexError (Py.getitem (Py.range (device_count cuda)) 0) ;;
            ret (n, true)
          else
            try_except
              (seg <- of_option IndexError (Py.getitem (Py.split ":" device) (-1)) ;;
               n <- of_option ValueError (Py.int seg) ;;
               ret (n, true))
              (ret (device_num, attached))
        else ret (device_num, attached)) ;;
    if negb attached then
      print "Unable to use CUDA (GPU), using CPU" ;;;
      ret ("cpu", -1)
    else ret (device, device_num)
  else ret (device, device_num).

(** Lines printed by a run, in order. *)
Fixpoint printed (tr : list event) : list string :=
  match tr with
  | [] => []
  | EvPrint s :: r => s :: printed r
  | _ :: r => printed r
  end.

(** ** The toolkit: transformers, nltk, torch

    A hidden-state value is never inspected by the module, so the type of
    scalars is left open. *)

Section Toolkit.

Variable scalar : Type.

(** One layer's hidden states: batch, then token position, then feature. *)
Definition vector : Type := list scalar.
Definition tensor3 : Type := list (list vector).

Record sentiment : Type := { label : string; score : scalar }.

(** The configuration object is opaque to the module. *)
Variable config : Type.

Record tokenizer : Type := {
  (** [tokenizer(sentences, **kw)]: the ["input_ids"] and ["attention_mask"] entries *)
  tokenize_batch : list string -> tok_kwargs -> outcome (list (list Z) * list (list Z));
  (** [tokenizer.encode(text, **kw)] *)
  encode : string -> tok_kwargs -> outcome (list Z);
  convert_ids_to_tokens : list Z -> outcome (list string)
}.

Record transformer : Type := {
  (** [model(input_ids, attention_mask=mask)[-1]]: the hidden states, one per layer *)
  forward : list (list Z) -> option (list (list Z)) -> outcome (list tensor3)
}.

Definition sentiment_pipeline_t : Type := list string -> outcome (list sentiment).

Record toolkit : Type := {
  cuda : torch_cuda;
  (** whether [from transformers import BertTokenizer, MegatronBertForMaskedLM] succeeds *)
  import_megatron : bool;
  AutoConfig_from_pretrained : string -> bool -> outcome config;
  AutoTokenizer_from_pretrained : string -> outcome tokenizer;
  AutoModel_from_pretrained : string -> config -> outcome transformer;
  BertTokenizer_from_pretrained : string -> outcome tokenizer;
  MegatronBertForMaskedLM_from_pretrained : string -> config -> outcome transformer;
  sent_tokenize : string -> outcome (list string);
  (** [pipeline(task, model=, tokenizer=, device=)] *)
  pipeline : string -> option string -> option tokenizer -> option Z ->
             outcome sentiment_pipeline_t
}.

Variable T : toolkit.

(** ** get_model (lines 96-130) *)

Definition get_model (model : string) : M (config * tokenizer * transformer) :=
  if Py.contains "megatron-bert" model then
    try_except
      (call EvImportMegatron
         (if import_megatron T then Ret tt else Raise (ToolkitError "ImportError")))
      (print "WARNING: You must install transformers>4.10 to use MegatronBertForMaskedLM" ;;;
       print (String (ascii_of_nat 9) "Please try another model.") ;;;
       raise SystemExit) ;;;
    config <- call (EvAutoConfig model true) (AutoConfig_from_pretrained T model true) ;;
    tokenizer <-
      (if Py.contains "megatron-bert-cased" model then
         call (EvBertTokenizer "nvidia/megatron-bert-cased-345m")
              (BertTokenizer_from_pretrained T "nvidia/megatron-bert-cased-345m")
       else
         call (EvBertTokenizer "nvidia/megatron-bert-uncased-345m")
              (BertTokenizer_from_pretrained T "nvidia/megatron-bert-uncased-345m")) ;;
    transformer_model <-
      call (EvMegatronModel model) (MegatronBertForMaskedLM_from_pretrained T model config) ;;
    ret (config, tokenizer, transformer_model)
  else
    config <- call (EvAutoConfig model true) (AutoConfig_from_pretrained T model true) ;;
    tokenizer <- call (EvAutoTokenizer model) (AutoTokenizer_from_pretrained T model) ;;
    transformer_model <- call (EvAutoModel model) (AutoModel_from_pretrained T model config) ;;
    ret (config, tokenizer, transformer_model).

(** ** hgTransformerGetSentiment (lines 132-180) *)

(** [text_strings] is a list of strings or a single string. *)
Inductive text_arg : Type :=
| OneText (s : string)
| TextList (l : list string).

(** Lines 165-166, 245-246. *)
Definition as_list (text_strings : text_arg) : list string :=
  match text_strings with
  | OneText s => [s]
  | TextList l => l
  end.

Definition truthy (s : string) : bool :=
  match s with
  | EmptyString => false
  | _ => true
  end.

Definition hgTransformerGetSentiment
    (text_strings : text_arg) (model : string) (device : string)
    (tokenizer_parallelism : bool) (logging_level : string) : M (list sentiment) :=
  set_logging_level logging_level ;;;
  set_tokenizer_parallelism tokenizer_parallelism ;;;
  '(device, device_num) <- get_device (cuda T) device ;;
  let text_strings := as_list text_strings in
  sentiment_pipeline <-
    (if truthy model then
       '(config, tokenizer, transformer_model) <- get_model model ;;
       if device_num >? 0 then
         call (EvPipeline "sentiment-analysis" (Some model) true (Some device_num))
              (pipeline T "sentiment-analysis" (Some model) (Some tokenizer) (Some device_num))
       else
         call (EvPipeline "sentiment-analysis" (Some model) true None)
              (pipeline T "sentiment-analysis" (Some model) (Some tokenizer) None)
     else
       if device_num >? 0 then
         call (EvPipeline "sentiment-analysis" None false (Some device_num))
              (pipeline T "sentiment-analysis" None None (Some device_num))
       else
         call (EvPipeline "sentiment-analysis" None false None)
              (pipeline T "sentiment-analysis" None None None)) ;;
  sentiment_scores <- call (EvRunPipeline text_strings) (sentiment_pipeline text_strings) ;;
  ret sentiment_scores.

(** ** hgTransformerGetEmbedding (lines 182-314) *)

(** [layers] is ['all'], one integer, or a list of integers. *)
Inductive layers_arg : Type :=
| LayersAll
| LayerOne (i : Z)
| LayerList (l : list Z).

(** Lines 248-251: [None] stands for ['all']. *)
Definition as_layer_list (layers : layers_arg) : option (list Z) :=
  match layers with
  | LayersAll => None
  | LayerOne i => Some [i]
  | LayerList l => Some l
  end.

(** [torch.tensor(rows)] on a nested list of integers: ragged rows raise. *)
Definition rectangular {A} (rows : list (list A)) : bool :=
  match rows with
  | [] => true
  | r :: rest => forallb (fun r' => (List.length r' =? List.length r)%nat) rest
  end.

Definition torch_tensor (rows : list (list Z)) : M (list (list Z)) :=
  if rectangular rows then ret rows else raise ValueError.

(** Lines 279-280, 304-305. *)
Definition select_layers (layers : option (list Z)) (hidden_states : list tensor3)
  : M (list tensor3) :=
  match layers with
  | None => ret hidden_states
  | Some ls => mapM (fun l => of_option IndexError (Py.getitem hidden_states l)) ls
  end.

(** [enumerate(l)] *)
Definition enumerate {A} (l : list A) : list (nat * A) :=
  combine (seq 0 (List.length l)) l.

(** [attention_mask[m][ii]] *)
Definition mask_at (attention_mask : list (list Z)) (m ii : nat) : M Z :=
  row <- of_option IndexError (nth_error attention_mask m) ;;
  of_option IndexError (nth_error row ii).

(** Line 288: [[tok for ii, tok in enumerate(hidden_states[l][m]) if attention_mask[m][ii] > 0]] *)
Definition keep_unmasked (attention_mask : list (list Z)) (m : nat) (sentence : list vector)
  : M (list vector) :=
  kept <- mapM (fun '(ii, tok) =>
                  a <- mask_at attention_mask m ii ;;
                  ret (if a >? 0 then [tok] else []))
               (enumerate sentence) ;;
  ret (List.concat kept).

(** Lines 286-289: one layer. *)
Definition layer_embedding (attention_mask : list (list Z)) (layer : tensor3)
  : M (list vector) :=
  parts <- mapM (fun '(m, sentence) => keep_unmasked attention_mask m sentence)
                (enumerate layer) ;;
  ret (List.concat parts).

Definition batch_kwargs (model_max_length : option Z) : tok_kwargs :=
  {| kw_padding := true; kw_truncation := true; kw_add_special_tokens := true;
     kw_max_length := model_max_length |}.

Definition encode_kwargs : tok_kwargs :=
  {| kw_padding := false; kw_truncation := false; kw_add_special_tokens := true;
     kw_max_length := None |}.

(** What one input string contributes: its entry of [all_embs] (layer, then
    batch, then token, then feature) and, when tokens are asked for, its
    entry of [all_toks]. *)
Definition embedding : Type := list tensor3.

Section Body.

Variables (tokenizer_ : tokenizer) (transformer_model : transformer).
Variables (layers : option (list Z)) (return_tokens : bool) (max_token_to_sentence : Z).
Variables (device : string) (device_num : Z) (model_max_length : option Z).

(** Lines 260-291. *)
Definition embed_sentences (text_string : string) : M (embedding * option (list string)) :=
  sentence_batch <- call (EvSentTokenize text_string) (sent_tokenize T text_string) ;;
  batch <- call (EvTokenizerCall sentence_batch (batch_kwargs model_max_length))
                (tokenize_batch tokenizer_ sentence_batch (batch_kwargs model_max_length)) ;;
  input_ids <- torch_tensor (fst batch) ;;
  attention_mask <- torch_tensor (snd batch) ;;
  (if negb (device =? "cpu")%string then
     emit (EvTensorTo device_num) ;;; emit (EvTensorTo device_num)
   else ret tt) ;;;
  tokens <-
    (if return_tokens then
       parts <- mapM (fun ids =>
                        toks <- call (EvConvertIds ids) (convert_ids_to_tokens tokenizer_ ids) ;;
                        ret (filter (fun token => negb (token =? "[PAD]")%string) toks))
                     input_ids ;;
       ret (Some (List.concat parts))
     else ret None) ;;
  hidden_states <- call (EvForward input_ids (Some attention_mask))
                        (forward transformer_model input_ids (Some attention_mask)) ;;
  hidden_states <- select_layers layers hidden_states ;;
  sent_embedding <- mapM (layer_embedding attention_mask) hidden_states ;;
  ret (map (fun l => [l]) sent_embedding, tokens).

(** Lines 293-309. *)
Definition embed_whole (text_string : string) : M (embedding * option (list string)) :=
  input_ids <- call (EvEncode text_string encode_kwargs)
                    (encode tokenizer_ text_string encode_kwargs) ;;
  tokens <-
    (if return_tokens then
       toks <- call (EvConvertIds input_ids) (convert_ids_to_tokens tokenizer_ input_ids) ;;
       ret (Some toks)
     else ret None) ;;
  (if negb (device =? "cpu")%string then emit (EvTensorTo device_num) else ret tt) ;;;
  hidden_states <- call (EvForward [input_ids] None)
                        (forward transformer_model [input_ids] None) ;;
  hidden_states <- select_layers layers hidden_states ;;
  ret (hidden_states, tokens).

(** Lines 256-309: the body of the loop over [text_strings]. *)
Definition embed_text_string (text_string : string) : M (embedding * option (list string)) :=
  if Py.len text_string >? max_token_to_sentence * 4 then embed_sentences text_string
  else embed_whole text_string.

(** Lines 253-309: the loop, with its two accumulators. *)
Fixpoint embed_loop (text_strings : list string)
    (all_embs : list embedding) (all_toks : list (list string))
  : M (list embedding * list (list string)) :=
  match text_strings with
  | [] => ret (all_embs, all_toks)
  | text_string :: rest =>
      r <- embed_text_string text_string ;;
      embed_loop rest (all_embs ++ [fst r])%list
                 (match snd r with
                  | Some tokens => (all_toks ++ [tokens])%list
                  | None => all_toks
                  end)
  end.

End Body.

(** Lines 311-314: embeddings with or without the token lists. *)
Inductive embedding_result : Type :=
| EmbeddingsAndTokens (all_embs : list embedding) (all_toks : list (list string))
| EmbeddingsOnly (all_embs : list embedding).

Definition hgTransformerGetEmbedding
    (text_strings : text_arg) (model : string) (layers : layers_arg)
    (return_tokens : bool) (max_token_to_sentence : Z) (device : string)
    (tokenizer_parallelism : bool) (model_max_length : option Z)
    (logging_level : string) : M embedding_result :=
  set_logging_level logging_level ;;;
  set_tokenizer_parallelism tokenizer_parallelism ;;;
  '(device, device_num) <- get_device (cuda T) device ;;
  let device := Py.lower device in
  device <- (if negb (Py.startswith device "cpu") && negb (Py.startswith device "gpu")
                && negb (Py.startswith device "cuda")
             then
               print "device must be 'cpu', 'gpu', 'cuda', or of the form 'gpu:k' or 'cuda:k'" ;;;
               print (String (ascii_of_nat 9) "where k is an integer value for the device") ;;;
               print "Trying CPUs" ;;;
               ret "cpu"
             else ret device) ;;
  '(config, tokenizer, transformer_model) <- get_model model ;;
  '(device, device_num) <- get_device (cuda T) device ;;
  (if negb (device =? "cpu")%string then
     emit (EvModelTo ("cuda:" ++ Py.str_of_Z device_num))
   else ret tt) ;;;
  (* line 242 reads [tokenizer.max_len_sentences_pair] into a name that is
     never used *)
  let text_strings := as_list text_strings in
  let layers := as_layer_list layers in
  '(all_embs, all_toks) <-
     embed_loop tokenizer transformer_model layers return_tokens max_token_to_sentence
                device device_num model_max_length text_strings [] [] ;;
  if return_tokens then ret (EmbeddingsAndTokens all_embs all_toks)
  else ret (EmbeddingsOnly all_embs).

End Toolkit.

Arguments forward {scalar} _ _ _.
Arguments label {scalar} _.
Arguments score {scalar} _.
Arguments cuda {scalar config} _.
Arguments import_megatron {scalar config} _.
Arguments AutoConfig_from_pretrained {scalar config} _ _ _.
Arguments AutoTokenizer_from_pretrained {scalar config} _ _.
Arguments AutoModel_from_pretrained {scalar config} _ _ _.
Arguments BertTokenizer_from_pretrained {scalar config} _ _.
Arguments MegatronBertForMaskedLM_from_pretrained {scalar config} _ _ _.
Arguments sent_tokenize {scalar config} _ _.
Arguments pipeline {scalar config} _ _ _ _ _.
Arguments get_model {scalar config} T model.
Arguments hgTransformerGetSentiment {scalar config} T _ _ _ _ _.
Arguments select_layers {scalar} _ _.
Arguments keep_unmasked {scalar} _ _ _.
Arguments layer_embedding {scalar} _ _.
Arguments embed_sentences {scalar config} T _ _ _ _ _ _ _ _.
Arguments embed_whole {scalar} _ _ _ _ _ _ _.
Arguments embed_text_string {scalar config} T _ _ _ _ _ _ _ _ _.
Arguments embed_loop {scalar config} T _ _ _ _ _ _ _ _ _ _ _.
Arguments EmbeddingsAndTokens {scalar} _ _.
Arguments EmbeddingsOnly {scalar} _.
Arguments hgTransformerGetEmbedding {scalar config} T _ _ _ _ _ _ _ _ _.

(** ** Vocabulary of the contract *)

(** Token positions of one mask row that are not padding. *)
Definition unmasked_count (row : list Z) : nat :=
  List.length (filter (fun a => a >? 0) row).

Definition total_unmasked (attention_mask : list (list Z)) : nat :=
  list_sum (map unmasked_count attention_mask).

(** The entries of a sentence whose mask value is positive, in order. *)
Definition masked_row {A} (mrow : list Z) (sentence : list A) : list A :=
  map snd (filter (fun p => fst p >? 0) (combine mrow sentence)).

(** The same over all sentences of a batch, joined in sentence order. *)
Definition masked_concat {A} (attention_mask : list (list Z)) (layer : list (list A))
  : list A :=
  List.concat (map (fun p => masked_row (fst p) (snd p)) (combine attention_mask layer)).

(** [n] rows of [w] entries each. *)
Definition has_shape {A} (n w : nat) (rows : list (list A)) : bool :=
  (List.length rows =? n)%nat && forallb (fun r => (List.length r =? w)%nat) rows.

(** Two sentences of the batch have different numbers of real tokens. *)
Definition unequal_lengths (attention_mask : list (list Z)) : bool :=
  existsb (fun r =>
             existsb (fun r' => negb (unmasked_count r =? unmasked_count r')%nat)
                     attention_mask)
          attention_mask.

(** The integer after the last colon of a device string, when there is one. *)
Definition index_suffix (device : string) : option Z :=
  match Py.getitem (Py.split ":" device) (-1) with
  | Some seg => Py.int seg
  | None => None
  end.

(** An accelerator can be attached for the (lowercased) request: CUDA is
    there, and the request is plain [gpu] or [cuda] or ends in an integer. *)
Definition attachable (c : torch_cuda) (device : string) : bool :=
  is_available c &&
  ((device =? "gpu")%string || (device =? "cuda")%string ||
   match index_suffix device with Some _ => true | None => false end).

Definition returns {A} (o : outcome A) : bool :=
  match o with
  | Ret _ => true
  | Raise _ => false
  end.

Definition is_sent_tokenize (ev : event) : bool :=
  match ev with
  | EvSentTokenize _ => true
  | _ => false
  end.

Definition is_pipeline (ev : event) : bool :=
  match ev with
  | EvPipeline _ _ _ _ => true
  | _ => false
  end.

(** The keyword arguments of a tokenizer call, for the events that are one. *)
Definition tokenizer_kwargs (ev : event) : option tok_kwargs :=
  match ev with
  | EvTokenizerCall _ kw => Some kw
  | EvEncode _ kw => Some kw
  | _ => None
  end.

(** Number of token positions of a layer entry [[seq]]; of any other
    shape of entry, none. *)
Definition token_dimension {A} (entry : list (list A)) : option nat :=
  match entry with
  | [seq] => Some (List.length seq)
  | _ => None
  end.

(** Line 274: the tokens of a row that are not spelled [[PAD]]. *)
Definition without_pad (toks : list string) : list string :=
  filter (fun token => negb (token =? "[PAD]")%string) toks.

(** What the collaborators answer while one long text is embedded: the
    sentences, the padded batch (one row of width [w] for each of the [n]
    sentences) and its mask, the
    tokens of each row (when tokens are asked for), the hidden states (one
    [n] by [w] tensor per layer) and the layers selected from them. *)
Record sentence_run {scalar config : Type} (T : toolkit scalar config)
    (tok : tokenizer) (model : transformer scalar)
    (layers : option (list Z)) (return_tokens : bool) (model_max_length : option Z)
    (text : string) (sentences : list string) (ids mask : list (list Z))
    (tokrows : list (list string)) (hs sel : list (tensor3 scalar)) (n w : nat)
  : Prop := {
  sr_sentences : sent_tokenize T text = Ret sentences;
  sr_batch : tokenize_batch tok sentences (batch_kwargs model_max_length) = Ret (ids, mask);
  sr_rows : List.length sentences = n;
  sr_ids : has_shape n w ids = true;
  sr_mask : has_shape n w mask = true;
  sr_tokens : return_tokens = true ->
              map (convert_ids_to_tokens tok) ids = map Ret tokrows;
  sr_forward : forward model ids (Some mask) = Ret hs;
  sr_hidden : forallb (has_shape n w) hs = true;
  sr_layers : result (select_layers layers hs) = Ret sel
}.

(** The same for a short text, encoded as one sequence. *)
Record whole_run {scalar : Type} (tok : tokenizer) (model : transformer scalar)
    (layers : option (list Z)) (return_tokens : bool)
    (text : string) (ids : list Z) (toks : list string)
    (hs sel : list (tensor3 scalar)) : Prop := {
  wr_encode : encode tok text encode_kwargs = Ret ids;
  wr_tokens : return_tokens = true -> convert_ids_to_tokens tok ids = Ret toks;
  wr_forward : forward model [ids] None = Ret hs;
  wr_layers : result (select_layers layers hs) = Ret sel
}.

(** The events of the single-sequence path: one [encode] with nothing but
    [add_special_tokens] set, the conversion to tokens, the transfer to the
    device, one forward pass without a mask. *)
Definition whole_event (text : string) (ev : event) : Prop :=
  match ev with
  | EvEncode t kw => t = text /\ kw = encode_kwargs
  | EvConvertIds _ => True
  | EvTensorTo _ => True
  | EvForward _ None => True
  | _ => False
  end.

(** The nesting without a batch level: directly under each layer, one
    element per token position. *)
Definition token_indexed {A} (positions : nat) (emb : list (list A)) : Prop :=
  Forall (fun entry => List.length entry = positions) emb.

(** The token lists a run of the loop appends to [all_toks]. *)
Definition collected_tokens {A} (rs : list (A * option (list string)))
  : list (list string) :=
  flat_map (fun r => match snd r with
                     | Some tokens => [tokens]
                     | None => []
                     end) rs.

(** ** A small concrete toolkit

    A character-level tokenizer in the style of BERT (every non-space
    character is a token, numbered from 1000; [101] and [102] frame a
    sequence, [0] pads), a
    model of three layers with one feature per token, and a sentence
    splitter that cuts at full stops.  [pad_name] is how the tokenizer
    spells its padding token. *)

Module Toy.

Fixpoint chars (s : string) : list ascii :=
  match s with
  | EmptyString => []
  | String c r => c :: chars r
  end.

Definition ids_of (s : string) : list Z :=
  (101 :: map (fun c => 1000 + Z.of_nat (nat_of_ascii c))
              (filter (fun c => negb (Py.is_space c)) (chars s)) ++ [102])%list.

Definition truncate (kw : tok_kwargs) (ids : list Z) : list Z :=
  match kw_max_length kw with
  | Some n => if kw_truncation kw then firstn (Z.to_nat n) ids else ids
  | None => ids
  end.

Definition pad_to {A} (w : nat) (pad : A) (row : list A) : list A :=
  (row ++ repeat pad (w - List.length row))%list.

Definition batch (sentences : list string) (kw : tok_kwargs)
  : outcome (list (list Z) * list (list Z)) :=
  let rows := map (fun s => truncate kw (ids_of s)) sentences in
  let w := if kw_padding kw then fold_right Nat.max 0%nat (map (@List.length Z) rows)
           else 0%nat in
  Ret (map (pad_to w 0) rows,
       map (fun r => pad_to w 0 (repeat 1 (List.length r))) rows).

Definition token_of (pad_name : string) (id : Z) : string :=
  if id =? 0 then pad_name
  else if id =? 101 then "[CLS]"
  else if id =? 102 then "[SEP]"
  else String (ascii_of_nat (Z.to_nat (id - 1000))) EmptyString.

Definition tokenizer_ (pad_name : string) : tokenizer :=
  {| tokenize_batch := batch;
     encode := fun text kw => Ret (truncate kw (ids_of text));
     convert_ids_to_tokens := fun ids => Ret (map (token_of pad_name) ids) |}.

Definition model : transformer Z :=
  {| forward := fun input_ids _ =>
       Ret (map (fun k => map (fun row => map (fun id => [id + k]) row) input_ids)
                [0; 1; 2]) |}.

Definition sentences_of (text : string) : list string :=
  filter truthy (map Py.strip (Py.split "." text)).

Definition classify (text : string) : sentiment Z :=
  {| label := if Py.contains "love" text then "POSITIVE" else "NEGATIVE";
     score := 1 |}.

(** Identifiers with [roberta] in them get a tokenizer that spells its
    padding token [<pad>]. *)
Definition kit (c : torch_cuda) (megatron_installed : bool) : toolkit Z unit :=
  {| cuda := c;
     import_megatron := megatron_installed;
     AutoConfig_from_pretrained := fun _ _ => Ret tt;
     AutoTokenizer_from_pretrained := fun name =>
       Ret (tokenizer_ (if Py.contains "roberta" name then "<pad>" else "[PAD]"));
     AutoModel_from_pretrained := fun _ _ => Ret model;
     BertTokenizer_from_pretrained := fun _ => Ret (tokenizer_ "[PAD]");
     MegatronBertForMaskedLM_from_pretrained := fun _ _ => Ret model;
     sent_tokenize := fun text => Ret (sentences_of text);
     pipeline := fun _ _ _ _ => Ret (fun texts => Ret (map classify texts)) |}.

Definition one_gpu : torch_cuda := {| is_available := true; device_count := 1 |}.
Definition no_gpu : torch_cuda := {| is_available := false; device_count := 0 |}.

(** One long and one short text, and what this toolkit answers on them. *)
Definition long_text : string := "Hi. It is a test.".
Definition short_text : string := "Hi.".

Definition sentences : list string := Eval vm_compute in sentences_of long_text.

Definition ids : list (list Z) :=
  Eval vm_compute in
    match batch sentences (batch_kwargs None) with
    | Ret b => fst b
    | Raise _ => []
    end.

Definition mask : list (list Z) :=
  Eval vm_compute in
    match batch sentences (batch_kwargs None) with
    | Ret b => snd b
    | Raise _ => []
    end.

Definition tokrows (pad_name : string) : list (list string) :=
  map (map (token_of pad_name)) ids.

Definition hidden : list (tensor3 Z) :=
  Eval vm_compute in
    match forward model ids (Some mask) with
    | Ret hs => hs
    | Raise _ => []
    end.

Definition short_ids : list Z := Eval vm_compute in ids_of short_text.

Definition short_hidden : list (tensor3 Z) :=
  Eval vm_compute in
    match forward model [short_ids] None with
    | Ret hs => hs
    | Raise _ => []
    end.

(** The layers picked by [layers=[0, -1]]. *)
Definition first_and_last : list (tensor3 Z) :=
  Eval vm_compute in
    match hidden with
    | [h0; _; h2] => [h0; h2]
    | _ => []
    end.

Definition short_tokens : list string :=
  Eval vm_compute in map (token_of "[PAD]") short_ids.

End Toy.

(** ** Vocabulary of the further properties *)



(** The characters of a formatted integer: the digits and the minus sign. *)
Definition is_index_char (c : ascii) : bool :=
  let n := nat_of_ascii c in
  (((48 <=? n) && (n <=? 57)) || (n =? 45))%nat.

Fixpoint all_chars (p : ascii -> bool) (s : string) : bool :=
  match s with
  | EmptyString => true
  | String c r => p c && all_chars p r
  end.

(** Events by kind. *)
Definition setup_event (ev : event) : Prop :=
  match ev with
  | EvPrint _ | EvSetVerbosity _ | EvSetEnviron _ _ => True
  | _ => False
  end.

Definition is_loader (ev : event) : bool :=
  match ev with
  | EvImportMegatron | EvAutoConfig _ _ | EvAutoTokenizer _ | EvAutoModel _
  | EvBertTokenizer _ | EvMegatronModel _ => true
  | _ => false
  end.

Definition is_transfer (ev : event) : bool :=
  match ev with
  | EvModelTo _ | EvTensorTo _ => true
  | _ => false
  end.

Definition is_convert_ids (ev : event) : bool :=
  match ev with
  | EvConvertIds _ => true
  | _ => false
  end.

Definition is_run_pipeline (ev : event) : bool :=
  match ev with
  | EvRunPipeline _ => true
  | _ => false
  end.

(** The events one input string can give rise to: calls to the sentence
    splitter, the tokenizer and the model; a conversion to tokens only when
    tokens are asked for; a transfer only to the resolved index of a device
    that is not [cpu]. *)
Definition body_event (return_tokens : bool) (device : string) (device_num : Z)
    (ev : event) : Prop :=
  match ev with
  | EvSentTokenize _ | EvTokenizerCall _ _ | EvEncode _ _ | EvForward _ _ => True
  | EvConvertIds _ => return_tokens = true
  | EvTensorTo k => device <> "cpu" /\ k = device_num
  | _ => False
  end.

(** The checkpoint the megatron branch takes its tokenizer from (lines 121-124). *)
Definition megatron_checkpoint (model : string) : string :=
  if Py.contains "megatron-bert-cased" model then "nvidia/megatron-bert-cased-345m"
  else "nvidia/megatron-bert-uncased-345m".

(** The events of a whole call of hgTransformerGetEmbedding, given how
    its device resolved: setting up, loading, moving the model to the
    resolved index, and the events of the input strings. *)
Definition call_event (return_tokens : bool) (resolved : outcome (string * Z))
    (ev : event) : Prop :=
  setup_event ev \/ is_loader ev = true \/
  match resolved with
  | Ret (d, n) =>
      (d <> "cpu" /\ ev = EvModelTo ("cuda:" ++ Py.str_of_Z n)) \/
      body_event return_tokens d n ev
  | Raise _ => False
  end.

(** Two results of hgTransformerGetEmbedding, one after the other. *)
Definition join_results {scalar : Type} (r1 r2 : embedding_result scalar)
  : embedding_result scalar :=
  match r1, r2 with
  | EmbeddingsAndTokens e1 t1, EmbeddingsAndTokens e2 t2 =>
      EmbeddingsAndTokens (e1 ++ e2) (t1 ++ t2)
  | EmbeddingsOnly e1, EmbeddingsOnly e2 => EmbeddingsOnly (e1 ++ e2)
  | EmbeddingsAndTokens e1 t1, EmbeddingsOnly e2 => EmbeddingsAndTokens (e1 ++ e2) t1
  | EmbeddingsOnly e1, EmbeddingsAndTokens e2 t2 => EmbeddingsAndTokens (e1 ++ e2) t2
  end.

(** Further runs of the concrete toolkit. *)

Module Demo.

(** A toolkit whose sentence splitter is missing its data. *)
Definition no_splitter : toolkit Z unit :=
  {| cuda := Toy.no_gpu;
     import_megatron := false;
     AutoConfig_from_pretrained := fun _ _ => Ret tt;
     AutoTokenizer_from_pretrained := fun _ => Ret (Toy.tokenizer_ "[PAD]");
     AutoModel_from_pretrained := fun _ _ => Ret Toy.model;
     BertTokenizer_from_pretrained := fun _ => Ret (Toy.tokenizer_ "[PAD]");
     MegatronBertForMaskedLM_from_pretrained := fun _ _ => Ret Toy.model;
     sent_tokenize := fun _ => Raise (ToolkitError "punkt");
     pipeline := fun _ _ _ _ => Ret (fun texts => Ret (map Toy.classify texts)) |}.

(** A tokenizer that does not pad. *)
Definition unpadded : tokenizer :=
  {| tokenize_batch := fun sentences kw =>
       Toy.batch sentences
         {| kw_padding := false; kw_truncation := kw_truncation kw;
            kw_add_special_tokens := kw_add_special_tokens kw;
            kw_max_length := kw_max_length kw |};
     encode := encode (Toy.tokenizer_ "[PAD]");
     convert_ids_to_tokens := convert_ids_to_tokens (Toy.tokenizer_ "[PAD]") |}.

Definition unpadded_ids : list (list Z) :=
  Eval vm_compute in
    match tokenize_batch unpadded Toy.sentences (batch_kwargs None) with
    | Ret b => fst b
    | Raise _ => []
    end.

Definition unpadded_mask : list (list Z) :=
  Eval vm_compute in
    match tokenize_batch unpadded Toy.sentences (batch_kwargs None) with
    | Ret b => snd b
    | Raise _ => []
    end.

Definition embed_call (texts : list string) : M (embedding_result Z) :=
  hgTransformerGetEmbedding (Toy.kit Toy.no_gpu false) (TextList texts)
    "bert-base-uncased" (LayerList [0; -1]) true 4 "cpu" false None "warning".

Definition value_of (m : M (embedding_result Z)) : embedding_result Z :=
  match result m with
  | Ret r => r
  | Raise _ => EmbeddingsOnly []
  end.

Definition short_result : embedding_result Z :=
  Eval vm_compute in value_of (embed_call [Toy.short_text]).

Definition long_result : embedding_result Z :=
  Eval vm_compute in value_of (embed_call [Toy.long_text]).

Definition both_result : embedding_result Z :=
  Eval vm_compute in value_of (embed_call [Toy.short_text; Toy.long_text]).

(** What the long text gives on its own, all layers asked. *)
Definition long_entry : embedding Z :=
  Eval vm_compute in
    match result (embed_text_string (Toy.kit Toy.no_gpu false) (Toy.tokenizer_ "[PAD]")
                    Toy.model None true 4 "cpu" (-1) None Toy.long_text) with
    | Ret r => fst r
    | Raise _ => []
    end.

Definition long_tokens : list string :=
  Eval vm_compute in
    match result (embed_text_string (Toy.kit Toy.no_gpu false) (Toy.tokenizer_ "[PAD]")
                    Toy.model None true 4 "cpu" (-1) None Toy.long_text) with
    | Ret (_, Some toks) => toks
    | _ => []
    end.

End Demo.

(** * Properties *)

(** ** The monad *)

Lemma run_eta {A} (m : M A) : (trace m, result m) = m.
Proof. destruct m; reflexivity. Qed.

Lemma bind_ret {A B} (a : A) (f : A -> M B) : bind (ret a) f = f a.
Proof. unfold bind; simpl. apply run_eta. Qed.

Lemma mapM_silent {A B} (f : A -> M B) (g : A -> B) (l : list A) :
  (forall a, In a l -> f a = ret (g a)) ->
  mapM f l = ret (map g l).
Proof.
  induction l as [| a l IH]; intros H; simpl.
  - reflexivity.
  - rewrite (H a) by (left; reflexivity).
    rewrite bind_ret, IH by (intros; apply H; right; assumption).
    rewrite bind_ret. reflexivity.
Qed.

(** ** get_device *)

Lemma split_not_nil (sep : ascii) (s : string) : Py.split sep s <> [].
Proof.
  destruct s as [| c r]; simpl; [discriminate |].
  destruct (Ascii.eqb c sep); [discriminate |].
  destruct (Py.split sep r); discriminate.
Qed.

Lemma getitem_last {A} (l : list A) :
  l <> [] -> exists x, Py.getitem l (-1) = Some x.
Proof.
  intros Hl. unfold Py.getitem.
  assert (0 < List.length l)%nat by (destruct l; [congruence | simpl; lia]).
  replace (0 <=? -1) with false by reflexivity. simpl.
  replace ((- Z.of_nat (List.length l) <=? -1)) with true
    by (symmetry; apply Z.leb_le; lia).
  simpl.
  destruct (nth_error l (Z.to_nat (Z.of_nat (List.length l) + -1))) eqn:E.
  - eauto.
  - apply nth_error_None in E. lia.
Qed.

Lemma known_prefix_false (d : string) :
  known_prefix d = false ->
  negb (Py.startswith d "cpu") && negb (Py.startswith d "gpu")
    && negb (Py.startswith d "cuda") = true.
Proof.
  unfold known_prefix. intros H.
  apply orb_false_elim in H as [H H3]. apply orb_false_elim in H as [H1 H2].
  rewrite H1, H2, H3. reflexivity.
Qed.

Lemma known_prefix_true (d : string) :
  known_prefix d = true ->
  negb (Py.startswith d "cpu") && negb (Py.startswith d "gpu")
    && negb (Py.startswith d "cuda") = false.
Proof.
  unfold known_prefix. intros H.
  destruct (Py.startswith d "cpu"), (Py.startswith d "gpu"), (Py.startswith d "cuda");
    try reflexivity; discriminate.
Qed.

(** An unrecognised prefix: the three help lines, then CPU. *)
Lemma get_device_unknown (c : torch_cuda) (device : string) :
  known_prefix (Py.lower device) = false ->
  get_device c device = (map EvPrint device_help, Ret ("cpu", -1)).
Proof.
  intros H. unfold get_device. rewrite (known_prefix_false _ H). reflexivity.
Qed.

Lemma get_device_known (c : torch_cuda) (device : string) :
  known_prefix (Py.lower device) = true ->
  get_device c device =
    let d := Py.lower device in
    if (d =? "cpu")%string then ([], Ret (d, -1))
    else if is_available c then
      if ((d =? "gpu") || (d =? "cuda"))%string then
        match device_count c with
        | O => ([], Raise IndexError)
        | S _ => ([], Ret (d, 0))
        end
      else
        match index_suffix d with
        | Some n => ([], Ret (d, n))
        | None => ([EvPrint cuda_warning], Ret ("cpu", -1))
        end
    else ([EvPrint cuda_warning], Ret ("cpu", -1)).
Proof.
  intros H. unfold get_device. rewrite (known_prefix_true _ H).
  rewrite bind_ret. cbv zeta.
  destruct (Py.lower device =? "cpu")%string; [reflexivity |].
  cbn [negb]. destruct (is_available c); [| reflexivity].
  destruct ((Py.lower device =? "gpu") || (Py.lower device =? "cuda"))%string.
  - destruct (device_count c) as [| k]; reflexivity.
  - unfold index_suffix.
    destruct (getitem_last (Py.split ":" (Py.lower device)) (split_not_nil _ _))
      as [seg Hseg].
    rewrite Hseg. cbn [of_option]. rewrite bind_ret.
    destruct (Py.int seg); reflexivity.
Qed.

Lemma get_device_returns (c : torch_cuda) (device : string) :
  (is_available c = true -> (0 < device_count c)%nat) ->
  exists d n, result (get_device c device) = Ret (d, n).
Proof.
  intros Hc. destruct (known_prefix (Py.lower device)) eqn:K.
  - rewrite (get_device_known _ _ K). cbv zeta.
    destruct (Py.lower device =? "cpu")%string; [do 2 eexists; reflexivity |].
    destruct (is_available c); [| do 2 eexists; reflexivity].
    destruct ((Py.lower device =? "gpu") || (Py.lower device =? "cuda"))%string.
    + destruct (device_count c);
        [specialize (Hc eq_refl); lia | do 2 eexists; reflexivity].
    + destruct (index_suffix (Py.lower device)); do 2 eexists; reflexivity.
  - rewrite (get_device_unknown _ _ K). do 2 eexists; reflexivity.
Qed.

Lemma lower_ascii_idem (c : ascii) :
  Py.lower_ascii (Py.lower_ascii c) = Py.lower_ascii c.
Proof.
  destruct c as [b0 b1 b2 b3 b4 b5 b6 b7].
  destruct b0, b1, b2, b3, b4, b5, b6, b7; reflexivity.
Qed.

Lemma lower_idem (s : string) : Py.lower (Py.lower s) = Py.lower s.
Proof.
  induction s as [| c s IH]; simpl; [reflexivity |].
  rewrite lower_ascii_idem, IH. reflexivity.
Qed.

(** What get_device returns is lowercase, has one of the three prefixes,
    and resolves to itself. *)
Lemma get_device_normal (c : torch_cuda) (device d : string) (n : Z) :
  result (get_device c device) = Ret (d, n) ->
  known_prefix (Py.lower d) = true /\ Py.lower d = d /\
  result (get_device c d) = Ret (d, n).
Proof.
  destruct (known_prefix (Py.lower device)) eqn:K.
  - assert (Hfix : forall k, result (get_device c device) = Ret (Py.lower device, k) ->
                   known_prefix (Py.lower (Py.lower device)) = true /\
                   Py.lower (Py.lower device) = Py.lower device /\
                   result (get_device c (Py.lower device)) = Ret (Py.lower device, k)).
    { intros k Hk. rewrite lower_idem. repeat split; [exact K |].
      rewrite <- Hk. rewrite !get_device_known by (rewrite ?lower_idem; exact K).
      rewrite lower_idem. reflexivity. }
    intros H. pose proof H as H'. rewrite (get_device_known _ _ K) in H'.
    cbv zeta in H'.
    destruct (Py.lower device =? "cpu")%string.
    { injection H' as <- <-. apply Hfix. exact H. }
    destruct (is_available c) eqn:Ha.
    + destruct ((Py.lower device =? "gpu") || (Py.lower device =? "cuda"))%string.
      * destruct (device_count c); [discriminate |].
        injection H' as <- <-. apply Hfix. exact H.
      * destruct (index_suffix (Py.lower device)).
        -- injection H' as <- <-. apply Hfix. exact H.
        -- injection H' as <- <-. repeat split.
    + injection H' as <- <-. repeat split.
  - rewrite (get_device_unknown _ _ K). intros H. injection H as <- <-.
    repeat split.
Qed.

(** The name [cpu] never comes back with an index other than -1. *)
Lemma get_device_cpu_index (c : torch_cuda) (device : string) (n : Z) :
  result (get_device c device) = Ret ("cpu", n) -> n = -1.
Proof.
  destruct (known_prefix (Py.lower device)) eqn:K.
  - rewrite (get_device_known _ _ K). cbv zeta.
    destruct (String.eqb_spec (Py.lower device) "cpu") as [E | NE].
    { intros H. injection H as _ <-. reflexivity. }
    destruct (is_available c).
    + destruct ((Py.lower device =? "gpu") || (Py.lower device =? "cuda"))%string.
      * destruct (device_count c); [discriminate |].
        intros H. injection H as E _. contradiction.
      * destruct (index_suffix (Py.lower device)); intros H.
        -- injection H as E _. contradiction.
        -- injection H as <-. reflexivity.
    + intros H. injection H as <-. reflexivity.
  - rewrite (get_device_unknown _ _ K). intros H. injection H as <-. reflexivity.
Qed.

(** C4: get_device never raises (torch reporting at least one device
    whenever it reports CUDA available); an input without one of the three
    prefixes gives [("cpu", -1)] after the three help lines, and a request
    for an accelerator that cannot be attached gives [("cpu", -1)] after
    the CUDA warning. *)
Theorem get_device_total (c : torch_cuda) (device : string) :
  (is_available c = true -> (0 < device_count c)%nat) ->
  (exists d n, result (get_device c device) = Ret (d, n)) /\
  (known_prefix (Py.lower device) = false ->
   get_device c device = (map EvPrint device_help, Ret ("cpu", -1))) /\
  (known_prefix (Py.lower device) = true ->
   Py.lower device <> "cpu" ->
   attachable c (Py.lower device) = false ->
   get_device c device = ([EvPrint cuda_warning], Ret ("cpu", -1))).
Proof.
  intros Hc. split; [| split].
  - apply get_device_returns; assumption.
  - apply get_device_unknown.
  - intros K Hne Hat. rewrite (get_device_known _ _ K). cbv zeta.
    destruct (String.eqb_spec (Py.lower device) "cpu") as [E | _]; [contradiction |].
    unfold attachable in Hat.
    destruct (is_available c); [| reflexivity].
    cbn [andb] in Hat.
    destruct ((Py.lower device =? "gpu") || (Py.lower device =? "cuda"))%string;
      [discriminate |].
    cbn [orb] in Hat.
    destruct (index_suffix (Py.lower device)); [discriminate | reflexivity].
Qed.

Lemma get_device_total_witness :
  (exists d n, result (get_device Toy.one_gpu "GPU:1") = Ret (d, n)) /\
  get_device Toy.one_gpu "tpu:0" = (map EvPrint device_help, Ret ("cpu", -1)) /\
  get_device Toy.one_gpu "cuda:first" = ([EvPrint cuda_warning], Ret ("cpu", -1)) /\
  get_device Toy.no_gpu "gpu:0" = ([EvPrint cuda_warning], Ret ("cpu", -1)).
Proof.
  assert (H1 : is_available Toy.one_gpu = true -> (0 < device_count Toy.one_gpu)%nat)
    by (intros _; simpl; lia).
  assert (H0 : is_available Toy.no_gpu = true -> (0 < device_count Toy.no_gpu)%nat)
    by (simpl; discriminate).
  split; [| split; [| split]].
  - apply (get_device_total Toy.one_gpu "GPU:1" H1).
  - apply (get_device_total Toy.one_gpu "tpu:0" H1). reflexivity.
  - apply (get_device_total Toy.one_gpu "cuda:first" H1);
      [reflexivity | discriminate | reflexivity].
  - apply (get_device_total Toy.no_gpu "gpu:0" H0);
      [reflexivity | discriminate | reflexivity].
Defined.

(** C5, as the code has it: with CUDA present a request that starts with
    [cpu] and carries a suffix comes back under its own name with the
    parsed index, and a negative suffix comes back as the index of an
    accelerator request. *)
Theorem get_device_suffix_escapes :
  get_device Toy.one_gpu "cpu:0" = ([], Ret ("cpu:0", 0)) /\
  get_device Toy.one_gpu "gpu:-1" = ([], Ret ("gpu:-1", -1)).
Proof. split; reflexivity. Qed.

(** ** get_model and hgTransformerGetSentiment *)

Lemma result_bind {A B} (m : M A) (f : A -> M B) :
  result (bind m f) =
  match result m with
  | Ret a => result (f a)
  | Raise e => Raise e
  end.
Proof. unfold bind. destruct (result m); reflexivity. Qed.

Lemma trace_bind {A B} (m : M A) (f : A -> M B) :
  trace (bind m f) =
  match result m with
  | Ret a => (trace m ++ trace (f a))%list
  | Raise _ => trace m
  end.
Proof. unfold bind. destruct (result m); reflexivity. Qed.

Lemma set_logging_level_returns (logging_level : string) :
  result (set_logging_level logging_level) = Ret tt.
Proof.
  unfold set_logging_level.
  repeat match goal with
         | |- context [if ?b then _ else _] => destruct b
         end; reflexivity.
Qed.

Lemma set_tokenizer_parallelism_returns (b : bool) :
  result (set_tokenizer_parallelism b) = Ret tt.
Proof. destruct b; reflexivity. Qed.

Ltac step_call :=
  match goal with
  | |- context [call _ (if ?b then _ else _)] => destruct b eqn:?
  | |- context [call _ ?r] =>
      lazymatch r with
      | Ret _ => fail
      | Raise _ => fail
      | _ => destruct r eqn:?
      end
  end.

Lemma set_logging_level_no_pipeline (logging_level : string) :
  filter is_pipeline (trace (set_logging_level logging_level)) = [].
Proof.
  unfold set_logging_level.
  repeat match goal with
         | |- context [if ?b then _ else _] => destruct b
         end; reflexivity.
Qed.

Lemma set_tokenizer_parallelism_no_pipeline (b : bool) :
  filter is_pipeline (trace (set_tokenizer_parallelism b)) = [].
Proof. destruct b; reflexivity. Qed.

Lemma get_device_no_pipeline (c : torch_cuda) (device : string) :
  filter is_pipeline (trace (get_device c device)) = [].
Proof.
  destruct (known_prefix (Py.lower device)) eqn:K.
  - rewrite (get_device_known _ _ K). cbv zeta.
    repeat match goal with
           | |- context [if ?b then _ else _] => destruct b
           | |- context [match ?x with _ => _ end] => destruct x
           end; reflexivity.
  - rewrite (get_device_unknown _ _ K). reflexivity.
Qed.

Section ToolkitFacts.

Context {scalar config : Type} (T : toolkit scalar config).

Lemma get_model_plain (model : string) :
  Py.contains "megatron-bert" model = false ->
  get_model T model =
    (config <- call (EvAutoConfig model true) (AutoConfig_from_pretrained T model true) ;;
     tokenizer <- call (EvAutoTokenizer model) (AutoTokenizer_from_pretrained T model) ;;
     transformer_model <- call (EvAutoModel model) (AutoModel_from_pretrained T model config) ;;
     ret (config, tokenizer, transformer_model)).
Proof. intros H. unfold get_model. rewrite H. reflexivity. Qed.

(** C9: a megatron-bert identifier without the specialised classes prints
    the two diagnostic lines and raises SystemExit; any other identifier
    goes through the three auto-loaders, hidden states requested, prints
    nothing, fails only where a loader fails, and returns their triple. *)
Theorem get_model_outcomes (model : string) :
  (Py.contains "megatron-bert" model = true ->
   import_megatron T = false ->
   get_model T model =
     ([EvImportMegatron;
       EvPrint "WARNING: You must install transformers>4.10 to use MegatronBertForMaskedLM";
       EvPrint (String (ascii_of_nat 9) "Please try another model.")],
      Raise SystemExit)) /\
  (Py.contains "megatron-bert" model = false ->
   (forall c tk tm,
      AutoConfig_from_pretrained T model true = Ret c ->
      AutoTokenizer_from_pretrained T model = Ret tk ->
      AutoModel_from_pretrained T model c = Ret tm ->
      get_model T model =
        ([EvAutoConfig model true; EvAutoTokenizer model; EvAutoModel model],
         Ret (c, tk, tm))) /\
   printed (trace (get_model T model)) = [] /\
   (forall e,
      result (get_model T model) = Raise e ->
      AutoConfig_from_pretrained T model true = Raise e \/
      AutoTokenizer_from_pretrained T model = Raise e \/
      exists c, AutoConfig_from_pretrained T model true = Ret c /\
                AutoModel_from_pretrained T model c = Raise e)).
Proof.
  split.
  - intros Hm Hi. unfold get_model. rewrite Hm, Hi. reflexivity.
  - intros Hm. rewrite (get_model_plain _ Hm). split; [| split].
    + intros c tk tm Hc Htk Htm. rewrite Hc. cbn. rewrite Htk. cbn.
      rewrite Htm. reflexivity.
    + repeat (step_call; cbn); reflexivity.
    + intros e. repeat (step_call; cbn); intros He; try discriminate He;
        inversion He; subst; eauto.
Qed.

Lemma get_model_no_pipeline (model : string) :
  filter is_pipeline (trace (get_model T model)) = [].
Proof.
  unfold get_model.
  destruct (Py.contains "megatron-bert" model).
  - destruct (import_megatron T); cbn;
      destruct (Py.contains "megatron-bert-cased" model);
      repeat (step_call; cbn); reflexivity.
  - repeat (step_call; cbn); reflexivity.
Qed.

Section Sentiment.

Variables (text_strings : text_arg) (model device : string).
Variables (tokenizer_parallelism : bool) (logging_level : string).
Variables (d : string) (n : Z).

Hypothesis device_resolved : result (get_device (cuda T) device) = Ret (d, n).
Hypothesis model_loaded :
  truthy model = true -> returns (result (get_model T model)) = true.

(** C8: the one pipeline construction of a call carries a device argument
    exactly when the resolved index is strictly positive; at index 0 or -1
    it carries none. *)
Theorem sentiment_device_argument :
  exists m wt dev,
    filter is_pipeline
      (trace (hgTransformerGetSentiment T text_strings model device
                tokenizer_parallelism logging_level)) =
      [EvPipeline "sentiment-analysis" m wt dev] /\
    (dev = Some n <-> 0 < n) /\
    (n <= 0 -> dev = None).
Proof.
  assert (Hdev : forall dev, dev = (if n >? 0 then Some n else None) ->
                 (dev = Some n <-> 0 < n) /\ (n <= 0 -> dev = None)).
  { intros dev ->. destruct (Z.gtb_spec n 0); split.
    - split; [lia | reflexivity].
    - lia.
    - split; [discriminate | lia].
    - reflexivity. }
  unfold hgTransformerGetSentiment.
  rewrite trace_bind, set_logging_level_returns, filter_app,
    set_logging_level_no_pipeline.
  rewrite trace_bind, set_tokenizer_parallelism_returns, filter_app,
    set_tokenizer_parallelism_no_pipeline.
  rewrite trace_bind, device_resolved, filter_app, get_device_no_pipeline.
  cbn [app]. rewrite trace_bind.
  destruct (truthy model) eqn:Hm.
  - specialize (model_loaded eq_refl).
    rewrite result_bind, trace_bind.
    destruct (result (get_model T model)) as [[[c tk] tm] |] eqn:Hg;
      [| discriminate].
    exists (Some model), true, (if n >? 0 then Some n else None).
    split; [| apply Hdev; reflexivity].
    destruct (n >? 0); cbn [result call snd trace fst];
      match goal with
      | |- context [pipeline T ?a ?b ?c0 ?e] => destruct (pipeline T a b c0 e) eqn:?
      end;
      rewrite ?filter_app, get_model_no_pipeline; cbn;
      try reflexivity;
      match goal with
      | |- context [call _ ?r] => destruct r
      end; reflexivity.
  - exists None, false, (if n >? 0 then Some n else None).
    split; [| apply Hdev; reflexivity].
    destruct (n >? 0); cbn [result call snd trace fst];
      match goal with
      | |- context [pipeline T ?a ?b ?c0 ?e] => destruct (pipeline T a b c0 e) eqn:?
      end;
      cbn; try reflexivity;
      match goal with
      | |- context [call _ ?r] => destruct r
      end; reflexivity.
Qed.

Section Scores.

Variables (p : sentiment_pipeline_t scalar) (classify : string -> sentiment scalar).

Hypothesis pipeline_built :
  forall m tk dev, pipeline T "sentiment-analysis" m tk dev = Ret p.
Hypothesis pipeline_pointwise :
  forall texts, p texts = Ret (map classify texts).

Lemma sentiment_run :
  hgTransformerGetSentiment T text_strings model device
    tokenizer_parallelism logging_level =
  (trace (hgTransformerGetSentiment T text_strings model device
            tokenizer_parallelism logging_level),
   Ret (map classify (as_list text_strings))) /\
  exists tr,
    trace (hgTransformerGetSentiment T text_strings model device
             tokenizer_parallelism logging_level) =
    (tr ++ [EvRunPipeline (as_list text_strings)])%list.
Proof.
  rewrite <- (run_eta (hgTransformerGetSentiment _ _ _ _ _ _)) at 1.
  unfold hgTransformerGetSentiment.
  rewrite ?result_bind, ?trace_bind.
  rewrite set_logging_level_returns. cbv beta iota.
  rewrite ?result_bind, ?trace_bind.
  rewrite set_tokenizer_parallelism_returns. cbv beta iota.
  rewrite ?result_bind, ?trace_bind.
  rewrite device_resolved. cbv beta iota.
  rewrite ?result_bind, ?trace_bind.
  destruct (truthy model) eqn:Hm.
  - specialize (model_loaded eq_refl).
    rewrite ?result_bind, ?trace_bind.
    destruct (result (get_model T model)) as [[[c tk] tm] |] eqn:Hg;
      [| discriminate].
    destruct (n >? 0); cbn [call result snd trace fst];
      rewrite pipeline_built, pipeline_pointwise; cbn [call result snd trace fst];
      (split; [reflexivity |]); eexists;
      rewrite !app_assoc; reflexivity.
  - destruct (n >? 0); cbn [call result snd trace fst];
      rewrite pipeline_built, pipeline_pointwise; cbn [call result snd trace fst];
      (split; [reflexivity |]); eexists;
      rewrite !app_assoc; reflexivity.
Qed.

(** C7: the pipeline is run once, on the list given or on the singleton
    list of the string given, and the call returns its scores: one per
    input string, in input order. *)
Theorem sentiment_one_per_input :
  result (hgTransformerGetSentiment T text_strings model device
            tokenizer_parallelism logging_level) =
    Ret (map classify (as_list text_strings)) /\
  In (EvRunPipeline (as_list text_strings))
     (trace (hgTransformerGetSentiment T text_strings model device
               tokenizer_parallelism logging_level)) /\
  (forall s, text_strings = OneText s -> as_list text_strings = [s]) /\
  (forall l, text_strings = TextList l -> as_list text_strings = l).
Proof.
  destruct sentiment_run as [Hrun [tr Htr]].
  split; [rewrite Hrun; reflexivity |].
  split; [rewrite Htr; apply in_or_app; right; left; reflexivity |].
  split; intros ? ->; reflexivity.
Qed.

End Scores.

End Sentiment.

End ToolkitFacts.

Lemma get_model_outcomes_witness :
  get_model (Toy.kit Toy.no_gpu false) "nvidia/megatron-bert-cased-345m" =
    ([EvImportMegatron;
      EvPrint "WARNING: You must install transformers>4.10 to use MegatronBertForMaskedLM";
      EvPrint (String (ascii_of_nat 9) "Please try another model.")],
     Raise SystemExit) /\
  get_model (Toy.kit Toy.no_gpu false) "bert-base-uncased" =
    ([EvAutoConfig "bert-base-uncased" true; EvAutoTokenizer "bert-base-uncased";
      EvAutoModel "bert-base-uncased"],
     Ret (tt, Toy.tokenizer_ "[PAD]", Toy.model)).
Proof.
  split.
  - apply (get_model_outcomes (Toy.kit Toy.no_gpu false)); reflexivity.
  - apply (get_model_outcomes (Toy.kit Toy.no_gpu false) "bert-base-uncased");
      reflexivity.
Defined.

Lemma sentiment_device_argument_witness :
  exists m wt dev,
    filter is_pipeline
      (trace (hgTransformerGetSentiment (Toy.kit Toy.one_gpu false)
                (OneText "I love this") "" "gpu" false "warning")) =
      [EvPipeline "sentiment-analysis" m wt dev] /\
    (dev = Some 0 <-> 0 < 0) /\
    (0 <= 0 -> dev = None).
Proof.
  apply (sentiment_device_argument (Toy.kit Toy.one_gpu false)
           (OneText "I love this") "" "gpu" false "warning" "gpu" 0).
  - reflexivity.
  - discriminate.
Defined.

Lemma sentiment_one_per_input_witness :
  result (hgTransformerGetSentiment (Toy.kit Toy.no_gpu false)
            (TextList ["I love this"; "I do not"]) "distilbert-base-uncased"
            "cpu" false "warning") =
    Ret (map Toy.classify (as_list (TextList ["I love this"; "I do not"]))) /\
  In (EvRunPipeline (as_list (TextList ["I love this"; "I do not"])))
     (trace (hgTransformerGetSentiment (Toy.kit Toy.no_gpu false)
               (TextList ["I love this"; "I do not"]) "distilbert-base-uncased"
               "cpu" false "warning")) /\
  (forall s, TextList ["I love this"; "I do not"] = OneText s ->
             as_list (TextList ["I love this"; "I do not"]) = [s]) /\
  (forall l, TextList ["I love this"; "I do not"] = TextList l ->
             as_list (TextList ["I love this"; "I do not"]) = l).
Proof.
  apply (sentiment_one_per_input (Toy.kit Toy.no_gpu false)
           (TextList ["I love this"; "I do not"]) "distilbert-base-uncased"
           "cpu" false "warning" "cpu" (-1)
           ltac:(reflexivity) ltac:(intros _; reflexivity)
           (fun texts => Ret (map Toy.classify texts)) Toy.classify
           ltac:(intros; reflexivity) ltac:(intros; reflexivity)).
Defined.

(** ** Lists, masks and shapes *)

Lemma has_shape_length {A} (n w : nat) (rows : list (list A)) :
  has_shape n w rows = true -> List.length rows = n.
Proof.
  unfold has_shape. intros H. apply andb_prop in H as [H _].
  apply Nat.eqb_eq in H. exact H.
Qed.

Lemma has_shape_rows {A} (n w : nat) (rows : list (list A)) :
  has_shape n w rows = true -> Forall (fun r => List.length r = w) rows.
Proof.
  unfold has_shape. intros H. apply andb_prop in H as [_ H].
  rewrite forallb_forall in H. apply Forall_forall. intros r Hr.
  apply Nat.eqb_eq. apply H. exact Hr.
Qed.

Lemma has_shape_rectangular {A} (n w : nat) (rows : list (list A)) :
  has_shape n w rows = true -> rectangular rows = true.
Proof.
  intros H. apply has_shape_rows in H. destruct rows as [| r rest]; [reflexivity |].
  simpl. apply forallb_forall. intros r' Hr'. apply Nat.eqb_eq.
  rewrite Forall_forall in H.
  rewrite (H r') by (right; exact Hr'). rewrite (H r) by (left; reflexivity).
  reflexivity.
Qed.

Lemma masked_row_length {A} (mrow : list Z) (sentence : list A) :
  List.length mrow = List.length sentence ->
  List.length (masked_row mrow sentence) = unmasked_count mrow.
Proof.
  unfold masked_row, unmasked_count. revert sentence.
  induction mrow as [| a mrow IH]; intros [| tok sentence] H; simpl in *;
    try reflexivity; try discriminate.
  injection H as H. destruct (a >? 0); simpl; rewrite IH by exact H; reflexivity.
Qed.

Lemma masked_concat_length {A} (n w : nat) (attention_mask : list (list Z))
    (layer : list (list A)) :
  has_shape n w attention_mask = true ->
  has_shape n w layer = true ->
  List.length (masked_concat attention_mask layer) = total_unmasked attention_mask.
Proof.
  intros Hm Hl.
  pose proof (has_shape_length _ _ _ Hm) as Ln.
  pose proof (has_shape_length _ _ _ Hl) as Ll.
  apply has_shape_rows in Hm. apply has_shape_rows in Hl.
  unfold masked_concat, total_unmasked. subst n.
  revert layer Ll Hl.
  induction Hm as [| mrow attention_mask Hrow Hm IH];
    intros [| sentence layer] Ll Hl; simpl in *; try reflexivity; try discriminate.
  inversion Hl; subst. injection Ll as Ll.
  rewrite length_app, masked_row_length by congruence.
  rewrite IH by assumption. reflexivity.
Qed.

Lemma unmasked_count_le (row : list Z) :
  (unmasked_count row <= List.length row)%nat.
Proof. unfold unmasked_count. apply filter_length_le. Qed.

Lemma list_sum_below {A} (f : A -> nat) (w : nat) (l : list A) :
  Forall (fun a => (f a <= w)%nat) l ->
  (list_sum (map f l) <= List.length l * w)%nat.
Proof.
  induction 1 as [| a l Ha Hl IH]; simpl; lia.
Qed.

Lemma list_sum_strictly_below {A} (f : A -> nat) (w : nat) (l : list A) (a : A) :
  Forall (fun a => (f a <= w)%nat) l ->
  In a l -> (f a < w)%nat ->
  (list_sum (map f l) < List.length l * w)%nat.
Proof.
  intros Hall. revert a.
  induction Hall as [| b l Hb Hl IH]; intros a Hin Ha; simpl in *.
  - contradiction.
  - destruct Hin as [-> | Hin].
    + pose proof (list_sum_below f w l Hl). lia.
    + specialize (IH a Hin Ha). lia.
Qed.

Lemma total_unmasked_lt (n w : nat) (attention_mask : list (list Z)) :
  has_shape n w attention_mask = true ->
  unequal_lengths attention_mask = true ->
  (total_unmasked attention_mask < n * w)%nat.
Proof.
  intros Hs Hu.
  pose proof (has_shape_length _ _ _ Hs) as Hn.
  pose proof (has_shape_rows _ _ _ Hs) as Hrows.
  assert (Hle : Forall (fun r => (unmasked_count r <= w)%nat) attention_mask).
  { rewrite Forall_forall in *. intros r Hr.
    rewrite <- (Hrows r Hr). apply unmasked_count_le. }
  unfold unequal_lengths in Hu.
  apply existsb_exists in Hu as [r [Hr Hu]].
  apply existsb_exists in Hu as [r' [Hr' Hne]].
  apply negb_true_iff, Nat.eqb_neq in Hne.
  rewrite <- Hn. unfold total_unmasked.
  rewrite Forall_forall in Hle.
  pose proof (Hle r Hr). pose proof (Hle r' Hr').
  destruct (Nat.lt_ge_cases (unmasked_count r) w) as [Hlt | Hge].
  - apply (list_sum_strictly_below _ _ _ r); [apply Forall_forall |..]; assumption.
  - apply (list_sum_strictly_below _ _ _ r'); [apply Forall_forall | |]; try assumption.
    lia.
Qed.

(** ** The mask filter of lines 285-289 *)

Lemma skipn_cons_nth {C} (cs : list C) (k : nat) (c : C) :
  nth_error cs k = Some c -> skipn k cs = c :: skipn (S k) cs.
Proof.
  revert k. induction cs as [| c0 cs IH]; intros [| k] H; simpl in *;
    try discriminate.
  - injection H as ->. reflexivity.
  - apply IH. exact H.
Qed.

Lemma mapM_enumerate_from {A B C} (F : nat * A -> M B) (g : C * A -> B)
    (cs : list C) (l : list A) :
  forall k,
    (k + List.length l <= List.length cs)%nat ->
    (forall i a c,
       nth_error l i = Some a -> nth_error cs (k + i) = Some c ->
       F ((k + i)%nat, a) = ret (g (c, a))) ->
    mapM F (combine (seq k (List.length l)) l) = ret (map g (combine (skipn k cs) l)).
Proof.
  induction l as [| a l IH]; intros k Hlen HF.
  - simpl. destruct (skipn k cs); reflexivity.
  - simpl in Hlen.
    destruct (nth_error cs k) as [c |] eqn:Hc;
      [| apply nth_error_None in Hc; lia].
    pose proof (skipn_cons_nth _ _ _ Hc) as Hskip.
    rewrite Hskip. cbn [List.length seq combine mapM map].
    pose proof (HF 0%nat a c eq_refl) as H0. rewrite Nat.add_0_r in H0.
    rewrite (H0 Hc), bind_ret.
    rewrite (IH (S k)).
    + rewrite bind_ret. reflexivity.
    + lia.
    + intros i a' c' Ha' Hc'. specialize (HF (S i) a' c' Ha').
      replace (k + S i)%nat with (S k + i)%nat in HF by lia.
      apply HF. exact Hc'.
Qed.

Lemma concat_kept {A} (pairs : list (Z * A)) :
  List.concat (map (fun p => if fst p >? 0 then [snd p] else []) pairs) =
  map snd (filter (fun p => fst p >? 0) pairs).
Proof.
  induction pairs as [| [a tok] pairs IH]; simpl; [reflexivity |].
  destruct (a >? 0); simpl; rewrite IH; reflexivity.
Qed.

Section MaskFilter.

Context {scalar : Type}.

Lemma keep_unmasked_spec (attention_mask : list (list Z)) (m : nat)
    (mrow : list Z) (sentence : list (vector scalar)) :
  nth_error attention_mask m = Some mrow ->
  (List.length sentence <= List.length mrow)%nat ->
  keep_unmasked attention_mask m sentence = ret (masked_row mrow sentence).
Proof.
  intros Hm Hlen. unfold keep_unmasked, enumerate.
  rewrite (mapM_enumerate_from _
             (fun p : Z * vector scalar => if fst p >? 0 then [snd p] else [])
             mrow sentence 0%nat).
  - rewrite bind_ret. cbn [skipn]. rewrite concat_kept. reflexivity.
  - simpl. exact Hlen.
  - intros i tok a _ Ha. cbn [Nat.add] in *.
    unfold mask_at. rewrite Hm. cbn [of_option]. rewrite bind_ret, Ha.
    cbn [of_option]. rewrite bind_ret. reflexivity.
Qed.

Lemma layer_embedding_spec (n w : nat) (attention_mask : list (list Z))
    (layer : tensor3 scalar) :
  has_shape n w attention_mask = true ->
  has_shape n w layer = true ->
  layer_embedding attention_mask layer = ret (masked_concat attention_mask layer).
Proof.
  intros Hm Hl. unfold layer_embedding, enumerate.
  pose proof (has_shape_length _ _ _ Hm) as Ln.
  pose proof (has_shape_length _ _ _ Hl) as Ll.
  pose proof (has_shape_rows _ _ _ Hm) as Rm.
  pose proof (has_shape_rows _ _ _ Hl) as Rl.
  rewrite (mapM_enumerate_from _
             (fun p : list Z * list (vector scalar) => masked_row (fst p) (snd p))
             attention_mask layer 0%nat).
  - rewrite bind_ret. reflexivity.
  - simpl. lia.
  - intros i sentence mrow Hs Hr. cbn [Nat.add] in *.
    apply keep_unmasked_spec; [exact Hr |].
    rewrite Forall_forall in Rm, Rl. cbn [fst snd].
    rewrite (Rm mrow) by (eapply nth_error_In; eassumption).
    rewrite (Rl sentence) by (eapply nth_error_In; eassumption).
    lia.
Qed.

End MaskFilter.

(** ** Running the loop body *)

Lemma result_bind_ret {A B} (m : M A) (f : A -> M B) (a : A) (o : outcome B) :
  result m = Ret a -> result (f a) = o -> result (bind m f) = o.
Proof. intros Hm Hf. rewrite result_bind, Hm. exact Hf. Qed.

Lemma mapM_trace_nil {A B} (f : A -> M B) (l : list A) :
  (forall a, trace (f a) = []) -> trace (mapM f l) = [].
Proof.
  intros Hf. induction l as [| a l IH]; simpl; [reflexivity |].
  rewrite trace_bind, Hf. destruct (result (f a)); [| reflexivity].
  rewrite trace_bind, IH. destruct (result (mapM f l)); reflexivity.
Qed.

Lemma mapM_result {A B} (f : A -> M B) (l : list A) (bs : list B) :
  result (mapM f l) = Ret bs -> Forall2 (fun a b => result (f a) = Ret b) l bs.
Proof.
  revert bs. induction l as [| a l IH]; simpl; intros bs H.
  - injection H as <-. constructor.
  - rewrite result_bind in H. destruct (result (f a)) as [b |] eqn:Hb;
      [| discriminate].
    rewrite result_bind in H.
    destruct (result (mapM f l)) as [bs' |] eqn:Hbs; [| discriminate].
    injection H as <-. constructor; [exact Hb | apply IH; reflexivity].
Qed.

Lemma getitem_In {A} (l : list A) (i : Z) (a : A) :
  Py.getitem l i = Some a -> In a l.
Proof.
  unfold Py.getitem. intros H.
  destruct ((0 <=? i) && (i <? Z.of_nat (List.length l)));
    [eapply nth_error_In; exact H |].
  destruct ((- Z.of_nat (List.length l) <=? i) && (i <? 0));
    [eapply nth_error_In; exact H | discriminate].
Qed.

Section LoopBody.

Context {scalar config : Type} (T : toolkit scalar config).

Lemma select_layers_trace (layers : option (list Z)) (hs : list (tensor3 scalar)) :
  trace (select_layers layers hs) = [].
Proof.
  destruct layers as [ls |]; [| reflexivity].
  apply mapM_trace_nil. intros l. destruct (Py.getitem hs l); reflexivity.
Qed.

Lemma select_layers_incl (layers : option (list Z)) (hs sel : list (tensor3 scalar)) :
  result (select_layers layers hs) = Ret sel ->
  forall h, In h sel -> In h hs.
Proof.
  destruct layers as [ls |]; simpl; intros H.
  - apply mapM_result in H. induction H as [| l h ls sel Hh _ IH]; intros h' Hin.
    + contradiction.
    + destruct Hin as [<- | Hin]; [| apply IH; exact Hin].
      destruct (Py.getitem hs l) as [h0 |] eqn:E; [| discriminate].
      injection Hh as <-. eapply getitem_In; exact E.
  - injection H as <-. auto.
Qed.

Lemma convert_rows (tok : tokenizer) (ids : list (list Z)) (tokrows : list (list string)) :
  map (convert_ids_to_tokens tok) ids = map Ret tokrows ->
  result (mapM (fun row =>
                  toks <- call (EvConvertIds row) (convert_ids_to_tokens tok row) ;;
                  ret (filter (fun token => negb (token =? "[PAD]")%string) toks))
               ids)
  = Ret (map without_pad tokrows).
Proof.
  revert tokrows. induction ids as [| row ids IH]; intros [| ts tokrows] H;
    simpl in H; try discriminate; [reflexivity |].
  injection H as Hrow Hrest. cbn [mapM map].
  eapply result_bind_ret.
  - eapply result_bind_ret; [exact Hrow | reflexivity].
  - eapply result_bind_ret; [apply IH; exact Hrest | reflexivity].
Qed.

Section Long.

Variables (tok : tokenizer) (model : transformer scalar).
Variables (layers : option (list Z)) (return_tokens : bool) (max_token_to_sentence : Z).
Variables (device : string) (device_num : Z) (model_max_length : option Z).
Variables (text : string) (sentences : list string) (ids mask : list (list Z)).
Variables (tokrows : list (list string)) (hs sel : list (tensor3 scalar)) (n w : nat).

Hypothesis run : sentence_run T tok model layers return_tokens model_max_length
                   text sentences ids mask tokrows hs sel n w.

Lemma selected_shapes : forall h, In h sel -> has_shape n w h = true.
Proof.
  intros h Hin. destruct run as [_ _ _ _ _ _ _ Hall Hsel].
  rewrite forallb_forall in Hall. apply Hall.
  eapply select_layers_incl; [exact Hsel | exact Hin].
Qed.

Lemma embed_sentences_result :
  result (embed_sentences T tok model layers return_tokens device device_num
            model_max_length text) =
  Ret (map (fun h => [masked_concat mask h]) sel,
       if return_tokens then Some (List.concat (map without_pad tokrows)) else None).
Proof.
  destruct run as [Hsent Hbatch _ Hids Hmask Htoks Hfwd Hhid Hsel].
  unfold embed_sentences.
  eapply result_bind_ret; [exact Hsent |].
  eapply result_bind_ret; [exact Hbatch |]. cbn [fst snd].
  unfold torch_tensor.
  rewrite (has_shape_rectangular _ _ _ Hids), (has_shape_rectangular _ _ _ Hmask).
  rewrite !bind_ret.
  eapply result_bind_ret.
  { instantiate (1 := tt). destruct (negb (device =? "cpu")%string); reflexivity. }
  eapply result_bind_ret.
  { instantiate (1 := if return_tokens
                      then Some (List.concat (map without_pad tokrows)) else None).
    destruct return_tokens; [| reflexivity].
    eapply result_bind_ret; [apply convert_rows; apply Htoks; reflexivity |].
    reflexivity. }
  eapply result_bind_ret; [exact Hfwd |].
  eapply result_bind_ret; [exact Hsel |]. cbv beta.
  rewrite (@mapM_silent (tensor3 scalar) (list (vector scalar))
             (layer_embedding mask) (masked_concat mask) sel).
  - rewrite bind_ret, map_map. reflexivity.
  - intros h Hin. apply (layer_embedding_spec n w); [exact Hmask |].
    apply selected_shapes. exact Hin.
Qed.

(** C1: a text longer than [max_token_to_sentence * 4] characters is split
    into sentences, and the sequence returned for each requested layer (the
    one element of that layer's entry) is made of the vectors at the
    positions of positive attention mask, sentence after sentence; their
    number is the total count of unmasked positions of the batch, and it is
    below sentences times batch width as soon as two sentences differ in
    their number of real tokens. *)
Theorem long_text_embedding :
  max_token_to_sentence * 4 < Py.len text ->
  exists toks,
    result (embed_text_string T tok model layers return_tokens max_token_to_sentence
              device device_num model_max_length text) =
      Ret (map (fun h => [masked_concat mask h]) sel, toks) /\
    In (EvSentTokenize text)
       (trace (embed_text_string T tok model layers return_tokens
                 max_token_to_sentence device device_num model_max_length text)) /\
    forall h, In h sel ->
      List.length (masked_concat mask h) = total_unmasked mask /\
      (unequal_lengths mask = true ->
       (List.length (masked_concat mask h) < List.length sentences * w)%nat).
Proof.
  intros Hlong. apply Z.gtb_lt in Hlong.
  unfold embed_text_string. rewrite Hlong.
  eexists. split; [apply embed_sentences_result |].
  split.
  - unfold embed_sentences. rewrite trace_bind.
    destruct (result (call (EvSentTokenize text) (sent_tokenize T text)));
      [apply in_or_app; left |]; simpl; left; reflexivity.
  - intros h Hin. pose proof (selected_shapes h Hin) as Hh.
    destruct run as [_ _ Hrows _ Hmask _ _ _ _].
    rewrite (masked_concat_length n w) by assumption.
    split; [reflexivity |]. intros Hu. rewrite Hrows.
    apply total_unmasked_lt; assumption.
Qed.

End Long.

Section Short.

Variables (tok : tokenizer) (model : transformer scalar).
Variables (layers : option (list Z)) (return_tokens : bool) (max_token_to_sentence : Z).
Variables (device : string) (device_num : Z) (model_max_length : option Z).
Variable text : string.

Lemma Forall_trace_bind {A B} (P : event -> Prop) (m : M A) (f : A -> M B) :
  Forall P (trace m) ->
  (forall a, result m = Ret a -> Forall P (trace (f a))) ->
  Forall P (trace (bind m f)).
Proof.
  intros Hm Hf. rewrite trace_bind. destruct (result m) as [a | e].
  - apply Forall_app. split; [exact Hm | apply Hf; reflexivity].
  - exact Hm.
Qed.

Lemma embed_whole_events :
  Forall (whole_event text)
         (trace (embed_whole tok model layers return_tokens device device_num text)).
Proof.
  unfold embed_whole.
  apply Forall_trace_bind; [repeat constructor |]. intros ids _.
  apply Forall_trace_bind.
  { destruct return_tokens; [| constructor].
    apply Forall_trace_bind; [repeat constructor | intros; constructor]. }
  intros toks _.
  apply Forall_trace_bind.
  { destruct (negb (device =? "cpu")%string); repeat constructor. }
  intros _ _.
  apply Forall_trace_bind; [repeat constructor |]. intros hs _.
  apply Forall_trace_bind; [rewrite select_layers_trace; constructor |].
  intros; constructor.
Qed.

Lemma embed_whole_result (ids : list Z) (toks : list string)
    (hs sel : list (tensor3 scalar)) :
  whole_run tok model layers return_tokens text ids toks hs sel ->
  result (embed_whole tok model layers return_tokens device device_num text) =
  Ret (sel, if return_tokens then Some toks else None).
Proof.
  intros [Henc Htoks Hfwd Hsel]. unfold embed_whole.
  eapply result_bind_ret; [exact Henc |].
  eapply result_bind_ret.
  { instantiate (1 := if return_tokens then Some toks else None).
    destruct return_tokens; [| reflexivity].
    eapply result_bind_ret; [apply Htoks; reflexivity | reflexivity]. }
  eapply result_bind_ret.
  { instantiate (1 := tt). destruct (negb (device =? "cpu")%string); reflexivity. }
  eapply result_bind_ret; [exact Hfwd |].
  eapply result_bind_ret; [exact Hsel | reflexivity].
Qed.

(** C6: the sentence tokenizer is called exactly when the text is longer
    than [max_token_to_sentence * 4] characters; otherwise the run starts by
    encoding the whole text with special tokens and without padding, makes
    only single-sequence calls, and returns the selected hidden states as
    the model gave them. *)
Theorem path_choice :
  existsb is_sent_tokenize
    (trace (embed_text_string T tok model layers return_tokens max_token_to_sentence
              device device_num model_max_length text)) =
    (Py.len text >? max_token_to_sentence * 4) /\
  (Py.len text <= max_token_to_sentence * 4 ->
   (exists tr,
      trace (embed_text_string T tok model layers return_tokens max_token_to_sentence
               device device_num model_max_length text) =
      EvEncode text encode_kwargs :: tr) /\
   kw_add_special_tokens encode_kwargs = true /\
   kw_padding encode_kwargs = false /\
   Forall (whole_event text)
     (trace (embed_text_string T tok model layers return_tokens max_token_to_sentence
               device device_num model_max_length text)) /\
   forall ids toks hs sel,
     whole_run tok model layers return_tokens text ids toks hs sel ->
     result (embed_text_string T tok model layers return_tokens max_token_to_sentence
               device device_num model_max_length text) =
     Ret (sel, if return_tokens then Some toks else None)).
Proof.
  unfold embed_text_string. split.
  - destruct (Py.len text >? max_token_to_sentence * 4).
    + unfold embed_sentences. rewrite trace_bind.
      destruct (result (call (EvSentTokenize text) (sent_tokenize T text)));
        reflexivity.
    + pose proof embed_whole_events as H.
      induction H as [| ev tr Hev _ IH]; [reflexivity |].
      simpl. rewrite IH. destruct ev; try contradiction; reflexivity.
  - intros Hshort.
    replace (Py.len text >? max_token_to_sentence * 4) with false
      by (symmetry; rewrite Z.gtb_ltb; apply Z.ltb_ge; exact Hshort).
    split; [| split; [reflexivity | split; [reflexivity | split]]].
    + unfold embed_whole. rewrite trace_bind.
      destruct (result (call (EvEncode text encode_kwargs)
                             (encode tok text encode_kwargs)));
        eexists; reflexivity.
    + apply embed_whole_events.
    + intros ids toks hs sel Hrun.
      apply (embed_whole_result ids toks hs sel Hrun).
Qed.

(** C10: on a text of at most [max_token_to_sentence * 4] characters the
    run is the same whatever [model_max_length] is, and its tokenizer call
    carries neither truncation nor a maximum length; on a longer text the
    batch call carries [model_max_length] as its maximum length. *)
Theorem max_length_only_for_sentences (model_max_length' : option Z) :
  (Py.len text <= max_token_to_sentence * 4 ->
   embed_text_string T tok model layers return_tokens max_token_to_sentence
     device device_num model_max_length text =
   embed_text_string T tok model layers return_tokens max_token_to_sentence
     device device_num model_max_length' text /\
   forall ev kw,
     In ev (trace (embed_text_string T tok model layers return_tokens
                     max_token_to_sentence device device_num model_max_length text)) ->
     tokenizer_kwargs ev = Some kw ->
     kw_truncation kw = false /\ kw_max_length kw = None) /\
  (max_token_to_sentence * 4 < Py.len text ->
   forall sentences,
     sent_tokenize T text = Ret sentences ->
     exists kw,
       In (EvTokenizerCall sentences kw)
          (trace (embed_text_string T tok model layers return_tokens
                    max_token_to_sentence device device_num model_max_length text)) /\
       kw_truncation kw = true /\ kw_max_length kw = model_max_length).
Proof.
  unfold embed_text_string. split.
  - intros Hshort.
    replace (Py.len text >? max_token_to_sentence * 4) with false
      by (symmetry; rewrite Z.gtb_ltb; apply Z.ltb_ge; exact Hshort).
    split; [reflexivity |].
    intros ev kw Hin Hkw. pose proof embed_whole_events as H.
    rewrite Forall_forall in H. specialize (H ev Hin).
    destruct ev; simpl in Hkw; try discriminate; simpl in H;
      try contradiction.
    destruct H as [_ H]. injection Hkw as <-. subst kw0. split; reflexivity.
  - intros Hlong sentences Hsent. apply Z.gtb_lt in Hlong. rewrite Hlong.
    exists (batch_kwargs model_max_length).
    split; [| split; reflexivity].
    unfold embed_sentences. rewrite trace_bind.
    cbn [call result snd trace fst]. rewrite Hsent.
    apply in_or_app. right. rewrite trace_bind.
    destruct (result (call (EvTokenizerCall sentences (batch_kwargs model_max_length))
                           (tokenize_batch tok sentences (batch_kwargs model_max_length))));
      [apply in_or_app; left |]; simpl; left; reflexivity.
Qed.

End Short.

Lemma has_shape_one {A} (k : nat) (entry : list (list A)) :
  has_shape 1 k entry = true -> token_dimension entry = Some k.
Proof.
  intros H. pose proof (has_shape_length _ _ _ H) as Hl.
  pose proof (has_shape_rows _ _ _ H) as Hr.
  destruct entry as [| seq [| ? ?]]; try discriminate.
  inversion Hr; subst. reflexivity.
Qed.

(** C2, amended: for a long text and for a short one alike, the entry of
    each requested layer is a batch of one sequence, and that sequence has
    one feature vector per token position that is not padding: the
    unmasked positions of the sentence batch, or the positions of the
    single unpadded encoding. *)
Theorem embedding_nesting
    (tok : tokenizer) (model : transformer scalar) (layers : option (list Z))
    (return_tokens : bool) (max_token_to_sentence : Z) (device : string)
    (device_num : Z) (model_max_length : option Z) (text : string) :
  (forall sentences ids mask tokrows hs sel n w,
     max_token_to_sentence * 4 < Py.len text ->
     sentence_run T tok model layers return_tokens model_max_length
       text sentences ids mask tokrows hs sel n w ->
     exists emb toks,
       result (embed_text_string T tok model layers return_tokens
                 max_token_to_sentence device device_num model_max_length text) =
         Ret (emb, toks) /\
       List.length emb = List.length sel /\
       Forall (fun entry => token_dimension entry = Some (total_unmasked mask)) emb) /\
  (forall ids toks hs sel,
     Py.len text <= max_token_to_sentence * 4 ->
     whole_run tok model layers return_tokens text ids toks hs sel ->
     forallb (has_shape 1 (List.length ids)) hs = true ->
     exists emb toks',
       result (embed_text_string T tok model layers return_tokens
                 max_token_to_sentence device device_num model_max_length text) =
         Ret (emb, toks') /\
       List.length emb = List.length sel /\
       Forall (fun entry => token_dimension entry = Some (List.length ids)) emb).
Proof.
  split.
  - intros sentences ids mask tokrows hs sel n w Hlong Hrun.
    apply Z.gtb_lt in Hlong. unfold embed_text_string. rewrite Hlong.
    do 2 eexists. split; [eapply embed_sentences_result; exact Hrun |].
    split; [apply length_map |].
    apply Forall_forall. intros entry Hin.
    apply in_map_iff in Hin as [h [<- Hh]]. cbn [token_dimension].
    pose proof (selected_shapes _ _ _ _ _ _ _ _ _ _ _ _ _ _ Hrun h Hh) as Hs.
    destruct Hrun as [_ _ _ _ Hmask _ _ _ _].
    rewrite (masked_concat_length n w) by assumption. reflexivity.
  - intros ids toks hs sel Hshort Hrun Hshape.
    unfold embed_text_string.
    replace (Py.len text >? max_token_to_sentence * 4) with false
      by (symmetry; rewrite Z.gtb_ltb; apply Z.ltb_ge; exact Hshort).
    do 2 eexists. split; [eapply embed_whole_result; exact Hrun |].
    split; [reflexivity |].
    apply Forall_forall. intros entry Hin. apply has_shape_one.
    rewrite forallb_forall in Hshape. apply Hshape.
    destruct Hrun as [_ _ _ Hsel]. eapply select_layers_incl; eassumption.
Qed.

End LoopBody.

(** When the tokenizer spells exactly the masked positions [[PAD]], the
    tokens kept by line 274 are as many as the positions kept by line 288. *)
Lemma without_pad_length (ts : list string) (mrow : list Z) :
  map (fun t => (t =? "[PAD]")%string) ts = map (fun a => negb (a >? 0)) mrow ->
  List.length (without_pad ts) = unmasked_count mrow.
Proof.
  unfold without_pad, unmasked_count. revert mrow.
  induction ts as [| t ts IH]; intros [| a mrow] H; simpl in *;
    try reflexivity; try discriminate.
  injection H as Ht Hrest. rewrite Ht.
  destruct (a >? 0); simpl; rewrite (IH mrow Hrest); reflexivity.
Qed.

Lemma tokens_match_when_pad_is_spelled (tokrows : list (list string))
    (mask : list (list Z)) :
  map (map (fun t => (t =? "[PAD]")%string)) tokrows =
  map (map (fun a => negb (a >? 0))) mask ->
  List.length (List.concat (map without_pad tokrows)) = total_unmasked mask.
Proof.
  unfold total_unmasked. revert mask.
  induction tokrows as [| ts tokrows IH]; intros [| mrow mask] H; simpl in *;
    try reflexivity; try discriminate.
  injection H as Hrow Hrest.
  rewrite length_app, (without_pad_length _ _ Hrow), (IH _ Hrest). reflexivity.
Qed.

(** ** The whole call *)

Section WholeCall.

Context {scalar config : Type} (T : toolkit scalar config).

Variables (tok : tokenizer) (model : transformer scalar).
Variables (layers : option (list Z)) (return_tokens : bool) (max_token_to_sentence : Z).
Variables (device : string) (device_num : Z) (model_max_length : option Z).

Lemma embed_loop_collects (texts : list string)
    (rs : list (embedding scalar * option (list string))) :
  Forall2 (fun text r =>
             result (embed_text_string T tok model layers return_tokens
                       max_token_to_sentence device device_num model_max_length text)
             = Ret r) texts rs ->
  forall all_embs all_toks,
    result (embed_loop T tok model layers return_tokens max_token_to_sentence
              device device_num model_max_length texts all_embs all_toks) =
    Ret ((all_embs ++ map fst rs)%list, (all_toks ++ collected_tokens rs)%list).
Proof.
  induction 1 as [| text r texts rs Hr _ IH]; intros all_embs all_toks.
  - simpl. rewrite !app_nil_r. reflexivity.
  - cbn [embed_loop]. eapply result_bind_ret; [exact Hr |]. cbv beta.
    rewrite IH. unfold collected_tokens. cbn [map flat_map].
    destruct (snd r); rewrite <- ?app_assoc; reflexivity.
Qed.

(** Under the pad contract the token list of a long text is as long as each
    layer's sequence; so is the token list of a short text when the
    tokenizer names one token per id and the model keeps the shape. *)
Lemma token_count_matches (text : string) :
  (forall sentences ids mask tokrows hs sel n w,
     max_token_to_sentence * 4 < Py.len text ->
     sentence_run T tok model layers true model_max_length
       text sentences ids mask tokrows hs sel n w ->
     map (map (fun t => (t =? "[PAD]")%string)) tokrows =
     map (map (fun a => negb (a >? 0))) mask ->
     exists emb toks,
       result (embed_text_string T tok model layers true max_token_to_sentence
                 device device_num model_max_length text) = Ret (emb, Some toks) /\
       Forall (fun entry => token_dimension entry = Some (List.length toks)) emb) /\
  (forall ids toks hs sel,
     Py.len text <= max_token_to_sentence * 4 ->
     whole_run tok model layers true text ids toks hs sel ->
     List.length toks = List.length ids ->
     forallb (has_shape 1 (List.length ids)) hs = true ->
     exists emb,
       result (embed_text_string T tok model layers true max_token_to_sentence
                 device device_num model_max_length text) = Ret (emb, Some toks) /\
       Forall (fun entry => token_dimension entry = Some (List.length toks)) emb).
Proof.
  split.
  - intros sentences ids mask tokrows hs sel n w Hlong Hrun Hpad.
    apply Z.gtb_lt in Hlong. unfold embed_text_string. rewrite Hlong.
    pose proof (embed_sentences_result T tok model layers true device device_num
                  model_max_length text sentences ids mask tokrows hs sel n w Hrun)
      as Hres.
    cbv iota in Hres.
    do 2 eexists. split; [exact Hres |].
    apply Forall_forall. intros entry Hin.
    apply in_map_iff in Hin as [h [<- Hh]]. cbn [token_dimension].
    assert (Hs : has_shape n w h = true)
      by (eapply selected_shapes; eassumption).
    destruct Hrun as [_ _ _ _ Hmask _ _ _ _].
    rewrite (masked_concat_length n w) by assumption.
    rewrite (tokens_match_when_pad_is_spelled _ _ Hpad). reflexivity.
  - intros ids toks hs sel Hshort Hrun Hlen Hshape.
    unfold embed_text_string.
    replace (Py.len text >? max_token_to_sentence * 4) with false
      by (symmetry; rewrite Z.gtb_ltb; apply Z.ltb_ge; exact Hshort).
    pose proof (embed_whole_result tok model layers true device device_num text
                  ids toks hs sel Hrun) as Hres.
    cbv iota in Hres.
    eexists. split; [exact Hres |].
    apply Forall_forall. intros entry Hin. rewrite Hlen. apply has_shape_one.
    rewrite forallb_forall in Hshape. apply Hshape.
    destruct Hrun as [_ _ _ Hsel]. eapply select_layers_incl; eassumption.
Qed.

End WholeCall.

Section Collect.

Context {scalar config : Type} (T : toolkit scalar config).

(** Once the device is resolved and the model loaded, the call returns the
    entries of its input strings, in order. *)
Lemma embedding_call_collects
    (text_strings : text_arg) (model : string) (layers : layers_arg)
    (return_tokens : bool) (max_token_to_sentence : Z) (device : string)
    (tokenizer_parallelism : bool) (model_max_length : option Z)
    (logging_level : string)
    (d : string) (n : Z) (c : config) (tok : tokenizer) (tm : transformer scalar)
    (rs : list (embedding scalar * option (list string))) :
  result (get_device (cuda T) device) = Ret (d, n) ->
  result (get_model T model) = Ret (c, tok, tm) ->
  Forall2 (fun text r =>
             result (embed_text_string T tok tm (as_layer_list layers) return_tokens
                       max_token_to_sentence d n model_max_length text) = Ret r)
          (as_list text_strings) rs ->
  result (hgTransformerGetEmbedding T text_strings model layers return_tokens
            max_token_to_sentence device tokenizer_parallelism model_max_length
            logging_level) =
  Ret (if return_tokens then EmbeddingsAndTokens (map fst rs) (collected_tokens rs)
       else EmbeddingsOnly (map fst rs)).
Proof.
  intros Hdev Hmodel Hbody.
  destruct (get_device_normal _ _ _ _ Hdev) as [Hk [Hl Hagain]].
  unfold hgTransformerGetEmbedding.
  eapply result_bind_ret; [apply set_logging_level_returns |].
  eapply result_bind_ret; [apply set_tokenizer_parallelism_returns |].
  eapply result_bind_ret; [exact Hdev |]. cbv beta iota zeta.
  rewrite (known_prefix_true _ Hk), Hl, bind_ret.
  eapply result_bind_ret; [exact Hmodel |]. cbv beta iota.
  eapply result_bind_ret; [exact Hagain |]. cbv beta iota.
  eapply result_bind_ret.
  { instantiate (1 := tt). destruct (negb (d =? "cpu")%string); reflexivity. }
  cbv zeta.
  eapply result_bind_ret;
    [apply (embed_loop_collects T _ _ _ _ _ _ _ _ _ _ Hbody [] []) |].
  cbn [app]. destruct return_tokens; reflexivity.
Qed.

End Collect.

(** ** The contract on the concrete toolkit *)

Lemma long_text_embedding_witness :
  exists toks,
    result (embed_text_string (Toy.kit Toy.no_gpu false) (Toy.tokenizer_ "[PAD]")
              Toy.model (Some [0; -1]) true 4 "cpu" (-1) None Toy.long_text) =
      Ret (map (fun h => [masked_concat Toy.mask h]) Toy.first_and_last, toks) /\
    In (EvSentTokenize Toy.long_text)
       (trace (embed_text_string (Toy.kit Toy.no_gpu false) (Toy.tokenizer_ "[PAD]")
                 Toy.model (Some [0; -1]) true 4 "cpu" (-1) None Toy.long_text)) /\
    forall h, In h Toy.first_and_last ->
      List.length (masked_concat Toy.mask h) = total_unmasked Toy.mask /\
      (unequal_lengths Toy.mask = true ->
       (List.length (masked_concat Toy.mask h) < List.length Toy.sentences * 11)%nat).
Proof.
  apply (long_text_embedding (Toy.kit Toy.no_gpu false) (Toy.tokenizer_ "[PAD]")
           Toy.model (Some [0; -1]) true 4 "cpu" (-1) None Toy.long_text
           Toy.sentences Toy.ids Toy.mask (Toy.tokrows "[PAD]")
           Toy.hidden Toy.first_and_last 2 11).
  - constructor; first [reflexivity | intros _; reflexivity].
  - reflexivity.
Defined.

(** On the long text of the toolkit: fifteen real tokens out of twice
    eleven positions. *)
Example long_text_counts :
  total_unmasked Toy.mask = 15%nat /\
  unequal_lengths Toy.mask = true /\
  (List.length Toy.sentences * 11 = 22)%nat.
Proof. repeat split. Qed.

(** C2, as stated, fails: what sits directly under a layer is one batch
    element, not one element per token position, on the sentence path and
    on the single-sequence path alike. *)
Lemma layer_entry_is_not_token_indexed :
  (exists emb,
     result (embed_text_string (Toy.kit Toy.no_gpu false) (Toy.tokenizer_ "[PAD]")
               Toy.model None false 4 "cpu" (-1) None Toy.long_text) =
       Ret (emb, None) /\
     ~ token_indexed (total_unmasked Toy.mask) emb) /\
  (exists emb,
     result (embed_text_string (Toy.kit Toy.no_gpu false) (Toy.tokenizer_ "[PAD]")
               Toy.model None false 4 "cpu" (-1) None Toy.short_text) =
       Ret (emb, None) /\
     ~ token_indexed (List.length Toy.short_ids) emb).
Proof.
  split; eexists; (split; [vm_compute; reflexivity |]);
    intros H; inversion H; discriminate.
Qed.

Lemma embedding_nesting_witness :
  (exists emb toks,
     result (embed_text_string (Toy.kit Toy.no_gpu false) (Toy.tokenizer_ "[PAD]")
               Toy.model (Some [0; -1]) true 4 "cpu" (-1) None Toy.long_text) =
       Ret (emb, toks) /\
     List.length emb = List.length Toy.first_and_last /\
     Forall (fun entry => token_dimension entry = Some (total_unmasked Toy.mask)) emb) /\
  (exists emb toks',
     result (embed_text_string (Toy.kit Toy.no_gpu false) (Toy.tokenizer_ "[PAD]")
               Toy.model None true 4 "cpu" (-1) None Toy.short_text) =
       Ret (emb, toks') /\
     List.length emb = List.length Toy.short_hidden /\
     Forall (fun entry => token_dimension entry = Some (List.length Toy.short_ids)) emb).
Proof.
  split.
  - apply (proj1 (embedding_nesting (Toy.kit Toy.no_gpu false) (Toy.tokenizer_ "[PAD]")
                    Toy.model (Some [0; -1]) true 4 "cpu" (-1) None Toy.long_text)
             Toy.sentences Toy.ids Toy.mask (Toy.tokrows "[PAD]")
             Toy.hidden Toy.first_and_last 2%nat 11%nat).
    + reflexivity.
    + constructor; first [reflexivity | intros _; reflexivity].
  - apply (proj2 (embedding_nesting (Toy.kit Toy.no_gpu false) (Toy.tokenizer_ "[PAD]")
                    Toy.model None true 4 "cpu" (-1) None Toy.short_text)
             Toy.short_ids Toy.short_tokens Toy.short_hidden Toy.short_hidden).
    + vm_compute. discriminate.
    + constructor; first [reflexivity | intros _; reflexivity].
    + reflexivity.
Defined.

(** C3, as the code has it: with a tokenizer that spells its padding token
    [<pad>], the padded positions stay in the token list and leave the
    embedding; twenty-two tokens face fifteen positions per layer. *)
Theorem pad_spelling_breaks_token_count :
  exists emb toks,
    result (hgTransformerGetEmbedding (Toy.kit Toy.no_gpu false)
              (OneText Toy.long_text) "roberta-base" LayersAll true 4 "cpu"
              false None "warning") =
      Ret (EmbeddingsAndTokens [emb] [toks]) /\
    List.length toks = 22%nat /\
    Forall (fun entry => token_dimension entry = Some 15%nat) emb.
Proof.
  do 2 eexists. split; [vm_compute; reflexivity |].
  split; [reflexivity | repeat constructor].
Qed.

(** With the padding token spelled [[PAD]] the same call gives fifteen
    tokens for fifteen positions. *)
Example pad_spelled_token_count :
  exists emb toks,
    result (hgTransformerGetEmbedding (Toy.kit Toy.no_gpu false)
              (OneText Toy.long_text) "bert-base-uncased" LayersAll true 4 "cpu"
              false None "warning") =
      Ret (EmbeddingsAndTokens [emb] [toks]) /\
    List.length toks = 15%nat /\
    Forall (fun entry => token_dimension entry = Some 15%nat) emb.
Proof.
  do 2 eexists. split; [vm_compute; reflexivity |].
  split; [reflexivity | repeat constructor].
Qed.

Lemma path_choice_witness :
  existsb is_sent_tokenize
    (trace (embed_text_string (Toy.kit Toy.no_gpu false) (Toy.tokenizer_ "[PAD]")
              Toy.model None true 4 "cpu" (-1) None Toy.short_text)) =
    (Py.len Toy.short_text >? 4 * 4) /\
  result (embed_text_string (Toy.kit Toy.no_gpu false) (Toy.tokenizer_ "[PAD]")
            Toy.model None true 4 "cpu" (-1) None Toy.short_text) =
    Ret (Toy.short_hidden, Some Toy.short_tokens).
Proof.
  destruct (path_choice (Toy.kit Toy.no_gpu false) (Toy.tokenizer_ "[PAD]")
              Toy.model None true 4 "cpu" (-1) None Toy.short_text) as [Hiff Hshort].
  split; [exact Hiff |].
  assert (Hlen : Py.len Toy.short_text <= 4 * 4) by (vm_compute; discriminate).
  destruct (Hshort Hlen) as [_ [_ [_ [_ Hres]]]].
  apply (Hres Toy.short_ids Toy.short_tokens Toy.short_hidden Toy.short_hidden).
  constructor; first [reflexivity | intros _; reflexivity].
Defined.

Lemma max_length_only_for_sentences_witness :
  embed_text_string (Toy.kit Toy.no_gpu false) (Toy.tokenizer_ "[PAD]")
    Toy.model None true 4 "cpu" (-1) (Some 3) Toy.short_text =
  embed_text_string (Toy.kit Toy.no_gpu false) (Toy.tokenizer_ "[PAD]")
    Toy.model None true 4 "cpu" (-1) None Toy.short_text /\
  exists kw,
    In (EvTokenizerCall Toy.sentences kw)
       (trace (embed_text_string (Toy.kit Toy.no_gpu false) (Toy.tokenizer_ "[PAD]")
                 Toy.model None true 4 "cpu" (-1) (Some 3) Toy.long_text)) /\
    kw_truncation kw = true /\ kw_max_length kw = Some 3.
Proof.
  split.
  - apply (proj1 (max_length_only_for_sentences (Toy.kit Toy.no_gpu false)
                    (Toy.tokenizer_ "[PAD]") Toy.model None true 4 "cpu" (-1)
                    (Some 3) Toy.short_text None)).
    vm_compute. discriminate.
  - apply (proj2 (max_length_only_for_sentences (Toy.kit Toy.no_gpu false)
                    (Toy.tokenizer_ "[PAD]") Toy.model None true 4 "cpu" (-1)
                    (Some 3) Toy.long_text None)).
    + reflexivity.
    + reflexivity.
Defined.

(** * Further properties *)

(** ** get_device: what a caller can rely on *)

(** A resolved device resolves to itself, without a word. *)
Lemma get_device_resolved_run (c : torch_cuda) (device d : string) (n : Z) :
  result (get_device c device) = Ret (d, n) ->
  get_device c d = ([], Ret (d, n)).
Proof.
  assert (Hcpu : get_device c "cpu" = ([], Ret ("cpu", -1))) by reflexivity.
  destruct (known_prefix (Py.lower device)) eqn:K.
  - assert (Hfix : forall k,
               get_device c device = ([], Ret (Py.lower device, k)) ->
               get_device c (Py.lower device) = ([], Ret (Py.lower device, k))).
    { intros k Hk. rewrite <- Hk.
      rewrite !get_device_known by (rewrite ?lower_idem; exact K).
      rewrite lower_idem. reflexivity. }
    rewrite (get_device_known _ _ K) in *. cbv zeta in *.
    destruct (Py.lower device =? "cpu")%string.
    { intros H. injection H as <- <-. apply Hfix. reflexivity. }
    destruct (is_available c).
    + destruct ((Py.lower device =? "gpu") || (Py.lower device =? "cuda"))%string.
      * destruct (device_count c); [discriminate |].
        intros H. injection H as <- <-. apply Hfix. reflexivity.
      * destruct (index_suffix (Py.lower device)).
        -- intros H. injection H as <- <-. apply Hfix. reflexivity.
        -- intros H. injection H as <- <-. exact Hcpu.
    + intros H. injection H as <- <-. exact Hcpu.
  - rewrite (get_device_unknown _ _ K). intros H. injection H as <- <-.
    exact Hcpu.
Qed.

(** X1: get_device reads its argument without regard to letter case, the
    name it returns is lowercase and starts with one of the three prefixes,
    and resolving that name again prints nothing and gives the same pair. *)
Theorem get_device_normal_form (c : torch_cuda) (device d : string) (n : Z) :
  result (get_device c device) = Ret (d, n) ->
  get_device c (Py.lower device) = get_device c device /\
  Py.lower d = d /\
  known_prefix d = true /\
  get_device c d = ([], Ret (d, n)).
Proof.
  intros H. split; [| split; [| split]].
  - unfold get_device. rewrite lower_idem. reflexivity.
  - apply (get_device_normal _ _ _ _ H).
  - destruct (get_device_normal _ _ _ _ H) as [Hk [Hl _]].
    rewrite Hl in Hk. exact Hk.
  - apply (get_device_resolved_run _ _ _ _ H).
Qed.

Lemma get_device_normal_form_witness :
  get_device Toy.one_gpu (Py.lower "CUDA:1") = get_device Toy.one_gpu "CUDA:1" /\
  Py.lower "cuda:1" = "cuda:1" /\
  known_prefix "cuda:1" = true /\
  get_device Toy.one_gpu "cuda:1" = ([], Ret ("cuda:1", 1)).
Proof.
  apply (get_device_normal_form Toy.one_gpu "CUDA:1" "cuda:1" 1).
  reflexivity.
Defined.

Lemma get_device_no_cuda (c : torch_cuda) (device : string) :
  is_available c = false ->
  result (get_device c device) = Ret ("cpu", -1).
Proof.
  intros Ha. destruct (known_prefix (Py.lower device)) eqn:K.
  - rewrite (get_device_known _ _ K). cbv zeta. rewrite Ha.
    destruct (String.eqb_spec (Py.lower device) "cpu") as [-> | _]; reflexivity.
  - rewrite (get_device_unknown _ _ K). reflexivity.
Qed.

(** X2: where torch reports no CUDA, every request resolves to
    [("cpu", -1)], and every request other than [cpu] itself is answered
    by a printed line. *)
Theorem get_device_without_cuda (c : torch_cuda) (device : string) :
  is_available c = false ->
  result (get_device c device) = Ret ("cpu", -1) /\
  (printed (trace (get_device c device)) = [] <-> Py.lower device = "cpu").
Proof.
  intros Ha. split; [apply get_device_no_cuda; exact Ha |].
  destruct (known_prefix (Py.lower device)) eqn:K.
  - rewrite (get_device_known _ _ K). cbv zeta. rewrite Ha.
    destruct (String.eqb_spec (Py.lower device) "cpu") as [E | NE]; simpl.
    + split; auto.
    + split; [discriminate | contradiction].
  - rewrite (get_device_unknown _ _ K). simpl. split; [discriminate |].
    intros E. rewrite E in K. discriminate.
Qed.

Lemma get_device_without_cuda_witness :
  result (get_device Toy.no_gpu "GPU:3") = Ret ("cpu", -1) /\
  (printed (trace (get_device Toy.no_gpu "GPU:3")) = [] <-> Py.lower "GPU:3" = "cpu").
Proof.
  apply (get_device_without_cuda Toy.no_gpu "GPU:3"). reflexivity.
Defined.

(** X3: a result under another name than [cpu] was reached without a
    print, with CUDA available, under the lowercased request; its index is
    0 for plain [gpu] or [cuda] and the integer after the last colon for
    anything else. *)
Theorem get_device_accelerator_result (c : torch_cuda) (device d : string) (n : Z) :
  result (get_device c device) = Ret (d, n) ->
  d <> "cpu" ->
  is_available c = true /\
  d = Py.lower device /\
  trace (get_device c device) = [] /\
  (d = "gpu" \/ d = "cuda" -> n = 0) /\
  (d <> "gpu" -> d <> "cuda" -> index_suffix d = Some n).
Proof.
  intros H Hd. destruct (known_prefix (Py.lower device)) eqn:K.
  - rewrite (get_device_known _ _ K) in *. cbv zeta in *.
    destruct (String.eqb_spec (Py.lower device) "cpu") as [E | NE].
    { injection H as <- _. contradiction. }
    destruct (is_available c).
    + destruct (String.eqb_spec (Py.lower device) "gpu") as [Eg | Ng];
        [| destruct (String.eqb_spec (Py.lower device) "cuda") as [Ec | Nc]];
        cbn [orb] in *.
      * destruct (device_count c); [discriminate |].
        injection H as <- <-. repeat split; auto. intros Hn. contradiction.
      * destruct (device_count c); [discriminate |].
        injection H as <- <-. repeat split; auto. intros _ Hn. contradiction.
      * destruct (index_suffix (Py.lower device)) eqn:Hs.
        -- injection H as <- <-. repeat split; auto.
           intros [E | E]; contradiction.
        -- injection H as <- _. contradiction.
    + injection H as <- _. contradiction.
  - rewrite (get_device_unknown _ _ K) in H. injection H as <- _. contradiction.
Qed.

Lemma get_device_accelerator_result_witness :
  is_available Toy.one_gpu = true /\
  "gpu:7" = Py.lower "GPU:7" /\
  trace (get_device Toy.one_gpu "GPU:7") = [] /\
  ("gpu:7" = "gpu" \/ "gpu:7" = "cuda" -> 7 = 0) /\
  ("gpu:7" <> "gpu" -> "gpu:7" <> "cuda" -> index_suffix "gpu:7" = Some 7).
Proof.
  apply (get_device_accelerator_result Toy.one_gpu "GPU:7" "gpu:7" 7).
  - reflexivity.
  - discriminate.
Defined.

(** ** An explicit index: formatting an integer and reading it back *)

Lemma all_chars_impl (p q : ascii -> bool) (s : string) :
  (forall c, p c = true -> q c = true) ->
  all_chars p s = true -> all_chars q s = true.
Proof.
  intros Hpq. induction s as [| c s IH]; simpl; [reflexivity |].
  intros H. apply andb_prop in H as [Hc Hs].
  rewrite (Hpq c Hc), (IH Hs). reflexivity.
Qed.

Lemma index_char_facts (c : ascii) :
  is_index_char c = true ->
  Py.is_space c = false /\ Py.lower_ascii c = c /\ Ascii.eqb c ":" = false.
Proof.
  destruct c as [b0 b1 b2 b3 b4 b5 b6 b7].
  destruct b0, b1, b2, b3, b4, b5, b6, b7; intros H;
    try discriminate H; repeat split.
Qed.

Lemma lower_index_chars (s : string) :
  all_chars is_index_char s = true -> Py.lower s = s.
Proof.
  induction s as [| c s IH]; simpl; [reflexivity |].
  intros H. apply andb_prop in H as [Hc Hs].
  destruct (index_char_facts c Hc) as [_ [-> _]]. rewrite (IH Hs). reflexivity.
Qed.

Lemma split_index_chars (s : string) :
  all_chars is_index_char s = true -> Py.split ":" s = [s].
Proof.
  induction s as [| c s IH]; simpl; [reflexivity |].
  intros H. apply andb_prop in H as [Hc Hs].
  destruct (index_char_facts c Hc) as [_ [_ ->]]. rewrite (IH Hs). reflexivity.
Qed.

Lemma rev_onto_twice (s a b : string) :
  Py.rev_onto (Py.rev_onto s a) b = Py.rev_onto a (s ++ b).
Proof.
  revert a b. induction s as [| c s IH]; intros a b; simpl; [reflexivity |].
  rewrite IH. reflexivity.
Qed.

Lemma all_chars_rev_onto (p : ascii -> bool) (s a : string) :
  all_chars p (Py.rev_onto s a) = all_chars p s && all_chars p a.
Proof.
  revert a. induction s as [| c s IH]; intros a; simpl; [reflexivity |].
  rewrite IH. simpl. destruct (p c), (all_chars p s), (all_chars p a); reflexivity.
Qed.

Lemma lstrip_index_chars (s : string) :
  all_chars is_index_char s = true -> Py.lstrip s = s.
Proof.
  destruct s as [| c s]; simpl; [reflexivity |].
  intros H. apply andb_prop in H as [Hc _].
  destruct (index_char_facts c Hc) as [-> _]. reflexivity.
Qed.

Lemma append_empty (s : string) : (s ++ "")%string = s.
Proof. induction s as [| c s IH]; simpl; [| rewrite IH]; reflexivity. Qed.

Lemma strip_index_chars (s : string) :
  all_chars is_index_char s = true -> Py.strip s = s.
Proof.
  intros H. unfold Py.strip.
  rewrite (lstrip_index_chars (Py.rev_onto s ""))
    by (rewrite all_chars_rev_onto, H; reflexivity).
  rewrite rev_onto_twice. simpl. rewrite append_empty.
  apply lstrip_index_chars. exact H.
Qed.

Lemma uint_index_chars (d : Decimal.uint) :
  all_chars is_index_char (NilEmpty.string_of_uint d) = true.
Proof. induction d; simpl; auto. Qed.

Lemma parse_digits_acc (d : Decimal.uint) :
  forall acc : positive,
    Py.parse_digits (NilEmpty.string_of_uint d) (Zpos acc) true =
    Some (Zpos (Pos.of_uint_acc d acc)).
Proof.
  induction d; intros acc; cbn [NilEmpty.string_of_uint Py.parse_digits Pos.of_uint_acc];
    [reflexivity | ..];
    match goal with
    | |- context [Py.digit_val ?c] =>
        let v := eval vm_compute in (Py.digit_val c) in
        change (Py.digit_val c) with v
    end;
    cbv iota; rewrite <- IHd; f_equal; lia.
Qed.

Lemma parse_digits_uint (d : Decimal.uint) :
  Py.parse_digits (NilEmpty.string_of_uint d) 0 true =
  Some (Z.of_N (Pos.of_uint d)).
Proof.
  induction d; cbn [NilEmpty.string_of_uint Py.parse_digits Pos.of_uint];
    [reflexivity | ..];
    match goal with
    | |- context [Py.digit_val ?c] =>
        let v := eval vm_compute in (Py.digit_val c) in
        change (Py.digit_val c) with v
    end;
    cbv iota; [exact IHd | ..];
    match goal with
    | |- Py.parse_digits _ ?a true = Some (Z.of_N (Npos (Pos.of_uint_acc _ ?p))) =>
        change a with (Zpos p)
    end; apply parse_digits_acc.
Qed.

Lemma parse_digits_first (d : Decimal.uint) (b : bool) :
  d <> Decimal.Nil ->
  Py.parse_digits (NilEmpty.string_of_uint d) 0 b =
  Py.parse_digits (NilEmpty.string_of_uint d) 0 true.
Proof. destruct d; intros H; [contradiction | reflexivity ..]. Qed.

(** Reading a formatted integer gives the integer back. *)
Lemma int_of_formatted (k : Z) : Py.int (Py.str_of_Z k) = Some k.
Proof.
  unfold Py.int.
  assert (Hchars : all_chars is_index_char (Py.str_of_Z k) = true).
  { destruct k as [| p | p]; [reflexivity | |];
      unfold Py.str_of_Z, NilZero.string_of_int, NilZero.string_of_uint; simpl Z.to_int.
    - destruct (Pos.to_uint p) eqn:E; try apply uint_index_chars. reflexivity.
    - simpl. destruct (Pos.to_uint p) eqn:E; try apply uint_index_chars. reflexivity. }
  rewrite (strip_index_chars _ Hchars).
  destruct k as [| p | p]; [reflexivity | |];
    unfold Py.str_of_Z, NilZero.string_of_int, NilZero.string_of_uint; simpl Z.to_int;
    pose proof (DecimalPos.Unsigned.to_uint_nonnil p) as Hnil;
    pose proof (DecimalPos.Unsigned.of_to p) as Hof.
  - destruct (Pos.to_uint p) eqn:E; [contradiction | ..];
      (rewrite <- E in *;
       assert (Hp : Py.parse_digits (NilEmpty.string_of_uint (Pos.to_uint p)) 0 false
                    = Some (Zpos p))
         by (rewrite (parse_digits_first _ _ Hnil), parse_digits_uint, Hof; reflexivity);
       rewrite E in *; cbn [NilEmpty.string_of_uint] in *; exact Hp).
  - assert (Hp : Py.parse_digits (NilEmpty.string_of_uint (Pos.to_uint p)) 0 false
                 = Some (Zpos p))
      by (rewrite (parse_digits_first _ _ Hnil), parse_digits_uint, Hof; reflexivity).
    destruct (Pos.to_uint p) eqn:E; [contradiction | ..];
      cbn [NilEmpty.string_of_uint] in *; rewrite Hp; reflexivity.
Qed.

Lemma formatted_index_chars (k : Z) : all_chars is_index_char (Py.str_of_Z k) = true.
Proof.
  destruct k as [| p | p]; [reflexivity | |];
    unfold Py.str_of_Z, NilZero.string_of_int, NilZero.string_of_uint; simpl Z.to_int.
  - destruct (Pos.to_uint p) eqn:E; try apply uint_index_chars. reflexivity.
  - simpl. destruct (Pos.to_uint p) eqn:E; try apply uint_index_chars. reflexivity.
Qed.

(** X4: with CUDA available, a request [cuda:k] or [GPU:k] for a formatted
    integer [k] comes back with index [k] and no print, whatever [k] is:
    negative, or beyond the number of devices, which is never consulted. *)
Theorem get_device_explicit_index (c : torch_cuda) (k : Z) :
  is_available c = true ->
  get_device c ("cuda:" ++ Py.str_of_Z k) = ([], Ret ("cuda:" ++ Py.str_of_Z k, k)) /\
  get_device c ("GPU:" ++ Py.str_of_Z k) = ([], Ret ("gpu:" ++ Py.str_of_Z k, k)).
Proof.
  intros Ha.
  pose proof (formatted_index_chars k) as Hc.
  pose proof (lower_index_chars _ Hc) as Hl.
  pose proof (split_index_chars _ Hc) as Hs.
  pose proof (int_of_formatted k) as Hi.
  split.
  - rewrite get_device_known; cbn [append Py.lower]; rewrite ?Hl.
    + cbv zeta. rewrite Ha. simpl.
      unfold index_suffix. simpl. rewrite Hs. simpl. rewrite Hi. reflexivity.
    + reflexivity.
  - rewrite get_device_known; cbn [append Py.lower]; rewrite ?Hl.
    + cbv zeta. rewrite Ha. simpl.
      unfold index_suffix. simpl. rewrite Hs. simpl. rewrite Hi. reflexivity.
    + reflexivity.
Qed.

Lemma get_device_explicit_index_witness :
  get_device Toy.one_gpu ("cuda:" ++ Py.str_of_Z 12) =
    ([], Ret ("cuda:" ++ Py.str_of_Z 12, 12)) /\
  get_device Toy.one_gpu ("GPU:" ++ Py.str_of_Z 12) =
    ([], Ret ("gpu:" ++ Py.str_of_Z 12, 12)).
Proof.
  apply (get_device_explicit_index Toy.one_gpu 12). reflexivity.
Defined.

(** ** set_logging_level and the environment flag *)



Section Flag.

Context {scalar config : Type} (T : toolkit scalar config).


End Flag.

(** ** get_model: the megatron branch *)

Section MoreToolkitFacts.

Context {scalar config : Type} (T : toolkit scalar config).

(** X7: for an identifier with [megatron-bert] in it and the specialised
    classes at hand, the configuration and the model are loaded from the
    identifier, hidden states requested, but the tokenizer from a fixed
    checkpoint, cased when the identifier has [megatron-bert-cased] in it
    and uncased otherwise; the auto-resolving tokenizer and model loaders
    are not called. *)
Theorem get_model_megatron (model : string) (c : config) (tk : tokenizer)
    (tm : transformer scalar) :
  Py.contains "megatron-bert" model = true ->
  import_megatron T = true ->
  AutoConfig_from_pretrained T model true = Ret c ->
  BertTokenizer_from_pretrained T (megatron_checkpoint model) = Ret tk ->
  MegatronBertForMaskedLM_from_pretrained T model c = Ret tm ->
  get_model T model =
    ([EvImportMegatron; EvAutoConfig model true;
      EvBertTokenizer (megatron_checkpoint model); EvMegatronModel model],
     Ret (c, tk, tm)).
Proof.
  intros Hm Hi Hc Htk Htm. unfold get_model, megatron_checkpoint in *.
  rewrite Hm, Hi. cbn. rewrite Hc. cbn.
  destruct (Py.contains "megatron-bert-cased" model);
    cbn; rewrite Htk; cbn; rewrite Htm; reflexivity.
Qed.

Lemma set_logging_level_events (logging_level : string) :
  Forall setup_event (trace (set_logging_level logging_level)).
Proof.
  unfold set_logging_level.
  repeat match goal with
         | |- context [if ?b then _ else _] => destruct b
         end; repeat constructor.
Qed.

Lemma set_tokenizer_parallelism_events (b : bool) :
  Forall setup_event (trace (set_tokenizer_parallelism b)).
Proof. destruct b; repeat constructor. Qed.

Lemma get_device_events (c : torch_cuda) (device : string) :
  Forall setup_event (trace (get_device c device)).
Proof.
  destruct (known_prefix (Py.lower device)) eqn:K.
  - rewrite (get_device_known _ _ K). cbv zeta.
    repeat match goal with
           | |- context [if ?b then _ else _] => destruct b
           | |- context [match ?x with _ => _ end] => destruct x
           end; repeat constructor.
  - rewrite (get_device_unknown _ _ K). repeat constructor.
Qed.

Lemma get_model_events (model : string) :
  Forall (fun ev => is_loader ev = true \/ setup_event ev) (trace (get_model T model)).
Proof.
  unfold get_model.
  destruct (Py.contains "megatron-bert" model).
  - destruct (import_megatron T); cbn;
      destruct (Py.contains "megatron-bert-cased" model);
      repeat (step_call; cbn);
      repeat (constructor; [first [left; reflexivity | right; exact I] |]);
      constructor.
  - repeat (step_call; cbn);
      repeat (constructor; [first [left; reflexivity | right; exact I] |]);
      constructor.
Qed.

End MoreToolkitFacts.

Lemma get_model_megatron_witness :
  get_model (Toy.kit Toy.no_gpu true) "nvidia/megatron-bert-cased-345m" =
    ([EvImportMegatron; EvAutoConfig "nvidia/megatron-bert-cased-345m" true;
      EvBertTokenizer (megatron_checkpoint "nvidia/megatron-bert-cased-345m");
      EvMegatronModel "nvidia/megatron-bert-cased-345m"],
     Ret (tt, Toy.tokenizer_ "[PAD]", Toy.model)).
Proof.
  apply (get_model_megatron (Toy.kit Toy.no_gpu true)
           "nvidia/megatron-bert-cased-345m" tt (Toy.tokenizer_ "[PAD]") Toy.model);
    reflexivity.
Defined.

(** ** hgTransformerGetSentiment: failures and the default model *)

Lemma filter_none (f : event -> bool) (P : event -> Prop) (tr : list event) :
  Forall P tr -> (forall ev, P ev -> f ev = false) -> filter f tr = [].
Proof.
  intros H Hf. induction H as [| ev tr Hev _ IH]; simpl; [reflexivity |].
  rewrite (Hf ev Hev). exact IH.
Qed.

Lemma setup_not_run_pipeline (ev : event) : setup_event ev -> is_run_pipeline ev = false.
Proof. destruct ev; simpl; intros H; try contradiction; reflexivity. Qed.

Lemma setup_not_loader (ev : event) : setup_event ev -> is_loader ev = false.
Proof. destruct ev; simpl; intros H; try contradiction; reflexivity. Qed.

Lemma setup_not_transfer (ev : event) : setup_event ev -> is_transfer ev = false.
Proof. destruct ev; simpl; intros H; try contradiction; reflexivity. Qed.

Lemma setup_not_convert (ev : event) : setup_event ev -> is_convert_ids ev = false.
Proof. destruct ev; simpl; intros H; try contradiction; reflexivity. Qed.

Lemma loading_not_run_pipeline (ev : event) :
  is_loader ev = true \/ setup_event ev -> is_run_pipeline ev = false.
Proof. destruct ev; simpl; intros [H | H]; try discriminate; try contradiction; reflexivity. Qed.

Lemma loading_not_transfer (ev : event) :
  is_loader ev = true \/ setup_event ev -> is_transfer ev = false.
Proof. destruct ev; simpl; intros [H | H]; try discriminate; try contradiction; reflexivity. Qed.

Lemma loading_not_convert (ev : event) :
  is_loader ev = true \/ setup_event ev -> is_convert_ids ev = false.
Proof. destruct ev; simpl; intros [H | H]; try discriminate; try contradiction; reflexivity. Qed.

Section SentimentFailures.

Context {scalar config : Type} (T : toolkit scalar config).

Variables (text_strings : text_arg) (model device : string).
Variables (tokenizer_parallelism : bool) (logging_level : string).
Variables (d : string) (n : Z).

Hypothesis device_resolved : result (get_device (cuda T) device) = Ret (d, n).

(** X8: nothing is caught on the way.  When loading the model raises, the
    call raises the same exception and no pipeline is built or run; when
    building the pipeline raises, the call raises the same exception and
    nothing is run; when running it raises, the call raises the same
    exception. *)
Theorem sentiment_failures_propagate (e : exn) :
  (truthy model = true ->
   result (get_model T model) = Raise e ->
   result (hgTransformerGetSentiment T text_strings model device
             tokenizer_parallelism logging_level) = Raise e /\
   filter is_pipeline
     (trace (hgTransformerGetSentiment T text_strings model device
               tokenizer_parallelism logging_level)) = [] /\
   filter is_run_pipeline
     (trace (hgTransformerGetSentiment T text_strings model device
               tokenizer_parallelism logging_level)) = []) /\
  ((truthy model = true -> returns (result (get_model T model)) = true) ->
   (forall m tk dev, pipeline T "sentiment-analysis" m tk dev = Raise e) ->
   result (hgTransformerGetSentiment T text_strings model device
             tokenizer_parallelism logging_level) = Raise e /\
   filter is_run_pipeline
     (trace (hgTransformerGetSentiment T text_strings model device
               tokenizer_parallelism logging_level)) = []) /\
  (forall p,
     (truthy model = true -> returns (result (get_model T model)) = true) ->
     (forall m tk dev, pipeline T "sentiment-analysis" m tk dev = Ret p) ->
     p (as_list text_strings) = Raise e ->
     result (hgTransformerGetSentiment T text_strings model device
               tokenizer_parallelism logging_level) = Raise e).
Proof.
  assert (Hsetup : forall f, (forall ev, setup_event ev -> f ev = false) ->
            filter f (trace (set_logging_level logging_level)) = [] /\
            filter f (trace (set_tokenizer_parallelism tokenizer_parallelism)) = [] /\
            filter f (trace (get_device (cuda T) device)) = []).
  { intros f Hf. repeat split; eapply filter_none; try exact Hf.
    - apply set_logging_level_events.
    - apply set_tokenizer_parallelism_events.
    - apply get_device_events. }
  destruct (Hsetup is_run_pipeline setup_not_run_pipeline) as [R1 [R2 R3]].
  unfold hgTransformerGetSentiment.
  rewrite ?result_bind, ?trace_bind.
  rewrite set_logging_level_returns. cbv beta iota.
  rewrite ?result_bind, ?trace_bind.
  rewrite set_tokenizer_parallelism_returns. cbv beta iota.
  rewrite ?result_bind, ?trace_bind.
  rewrite device_resolved. cbv beta iota.
  rewrite ?result_bind, ?trace_bind.
  rewrite !filter_app, R1, R2, R3, set_logging_level_no_pipeline,
    set_tokenizer_parallelism_no_pipeline, get_device_no_pipeline.
  cbn [app].
  split; [| split].
  - intros Hm Hg. rewrite Hm.
    rewrite ?result_bind, ?trace_bind. rewrite Hg.
    split; [reflexivity |]. rewrite get_model_no_pipeline.
    split; [reflexivity |].
    eapply filter_none; [apply get_model_events | apply loading_not_run_pipeline].
  - intros Hg Hp. destruct (truthy model).
    + specialize (Hg eq_refl). rewrite ?result_bind, ?trace_bind.
      destruct (result (get_model T model)) as [[[c tk] tm] |] eqn:E;
        [| discriminate].
      destruct (n >? 0); cbn [call result snd trace fst]; rewrite Hp;
        (split; [reflexivity |]); rewrite filter_app;
        rewrite (filter_none is_run_pipeline _ _ (get_model_events T model)
                   loading_not_run_pipeline); reflexivity.
    + destruct (n >? 0); cbn [call result snd trace fst]; rewrite Hp;
        split; reflexivity.
  - intros p Hg Hp He. destruct (truthy model).
    + specialize (Hg eq_refl). rewrite ?result_bind, ?trace_bind.
      destruct (result (get_model T model)) as [[[c tk] tm] |] eqn:E;
        [| discriminate].
      destruct (n >? 0); cbn [call result snd trace fst]; rewrite Hp, He;
        reflexivity.
    + destruct (n >? 0); cbn [call result snd trace fst]; rewrite Hp, He;
        reflexivity.
Qed.

End SentimentFailures.

Section SentimentDefault.

Context {scalar config : Type} (T : toolkit scalar config).

(** X9: with the empty model identifier no loader is ever called: the
    pipeline is built from the toolkit's defaults alone. *)
Theorem sentiment_default_loads_nothing
    (text_strings : text_arg) (device : string)
    (tokenizer_parallelism : bool) (logging_level : string) :
  filter is_loader
    (trace (hgTransformerGetSentiment T text_strings "" device
              tokenizer_parallelism logging_level)) = [].
Proof.
  unfold hgTransformerGetSentiment.
  rewrite trace_bind, set_logging_level_returns, filter_app.
  rewrite (filter_none _ _ _ (set_logging_level_events logging_level) setup_not_loader).
  rewrite trace_bind, set_tokenizer_parallelism_returns, filter_app.
  rewrite (filter_none _ _ _ (set_tokenizer_parallelism_events tokenizer_parallelism)
             setup_not_loader).
  cbn [app]. rewrite trace_bind.
  destruct (result (get_device (cuda T) device)) as [[d n] |];
    [| eapply filter_none; [apply get_device_events | apply setup_not_loader]].
  rewrite filter_app.
  rewrite (filter_none _ _ _ (get_device_events (cuda T) device) setup_not_loader).
  cbn [app truthy]. rewrite trace_bind.
  destruct (n >? 0); cbn [call result snd trace fst];
    match goal with
    | |- context [pipeline T ?a ?b ?c0 ?e] => destruct (pipeline T a b c0 e) eqn:?
    end; cbn; try reflexivity;
    match goal with
    | |- context [call _ ?r] => destruct r
    end; reflexivity.
Qed.

End SentimentDefault.

Lemma sentiment_failures_propagate_witness :
  result (hgTransformerGetSentiment (Toy.kit Toy.no_gpu false)
            (OneText "I love this") "nvidia/megatron-bert-cased-345m" "cpu"
            false "warning") = Raise SystemExit /\
  filter is_pipeline
    (trace (hgTransformerGetSentiment (Toy.kit Toy.no_gpu false)
              (OneText "I love this") "nvidia/megatron-bert-cased-345m" "cpu"
              false "warning")) = [] /\
  filter is_run_pipeline
    (trace (hgTransformerGetSentiment (Toy.kit Toy.no_gpu false)
              (OneText "I love this") "nvidia/megatron-bert-cased-345m" "cpu"
              false "warning")) = [].
Proof.
  apply (proj1 (sentiment_failures_propagate (Toy.kit Toy.no_gpu false)
                  (OneText "I love this") "nvidia/megatron-bert-cased-345m" "cpu"
                  false "warning" "cpu" (-1) ltac:(reflexivity) SystemExit));
    reflexivity.
Defined.

(** ** hgTransformerGetEmbedding: the events of a call *)

Lemma Forall_trace_mapM {A B} (P : event -> Prop) (f : A -> M B) (l : list A) :
  (forall a, Forall P (trace (f a))) -> Forall P (trace (mapM f l)).
Proof.
  intros Hf. induction l as [| a l IH]; simpl; [constructor |].
  apply Forall_trace_bind; [apply Hf |]. intros b _.
  apply Forall_trace_bind; [exact IH |]. intros; constructor.
Qed.

Lemma Forall_trace_nil {A} (P : event -> Prop) (m : M A) :
  trace m = [] -> Forall P (trace m).
Proof. intros ->. constructor. Qed.

Section CallEvents.

Context {scalar config : Type} (T : toolkit scalar config).

Lemma mask_at_trace (attention_mask : list (list Z)) (m ii : nat) :
  trace (mask_at attention_mask m ii) = [].
Proof.
  unfold mask_at. rewrite trace_bind.
  destruct (nth_error attention_mask m) as [row |]; [| reflexivity].
  cbn [of_option ret result snd trace fst app].
  destruct (nth_error row ii); reflexivity.
Qed.

Lemma keep_unmasked_trace (attention_mask : list (list Z)) (m : nat)
    (sentence : list (vector scalar)) :
  trace (keep_unmasked attention_mask m sentence) = [].
Proof.
  unfold keep_unmasked. rewrite trace_bind.
  rewrite mapM_trace_nil.
  - destruct (result (mapM _ _)); reflexivity.
  - intros [ii tok]. rewrite trace_bind, mask_at_trace.
    destruct (result (mask_at attention_mask m ii)); reflexivity.
Qed.

Lemma layer_embedding_trace (attention_mask : list (list Z)) (layer : tensor3 scalar) :
  trace (layer_embedding attention_mask layer) = [].
Proof.
  unfold layer_embedding. rewrite trace_bind.
  rewrite mapM_trace_nil.
  - destruct (result (mapM _ _)); reflexivity.
  - intros [m sentence]. apply keep_unmasked_trace.
Qed.

Lemma torch_tensor_trace (rows : list (list Z)) : trace (torch_tensor rows) = [].
Proof. unfold torch_tensor. destruct (rectangular rows); reflexivity. Qed.

Variables (tok : tokenizer) (model : transformer scalar).
Variables (layers : option (list Z)) (return_tokens : bool) (max_token_to_sentence : Z).
Variables (device : string) (device_num : Z) (model_max_length : option Z).

Lemma embed_sentences_events (text : string) :
  Forall (body_event return_tokens device device_num)
    (trace (embed_sentences T tok model layers return_tokens device device_num
              model_max_length text)).
Proof.
  unfold embed_sentences.
  apply Forall_trace_bind; [repeat constructor |]. intros sentences _.
  apply Forall_trace_bind; [repeat constructor |]. intros batch _.
  apply Forall_trace_bind; [apply Forall_trace_nil, torch_tensor_trace |].
  intros input_ids _.
  apply Forall_trace_bind; [apply Forall_trace_nil, torch_tensor_trace |].
  intros attention_mask _.
  apply Forall_trace_bind.
  { destruct (String.eqb_spec device "cpu") as [E | NE]; cbn [negb];
      [constructor | repeat constructor; assumption]. }
  intros _ _.
  apply Forall_trace_bind.
  { destruct return_tokens eqn:Hrt; [| constructor].
    apply Forall_trace_bind; [| intros; constructor].
    apply Forall_trace_mapM. intros ids.
    apply Forall_trace_bind; [| intros; constructor].
    repeat constructor. }
  intros tokens _.
  apply Forall_trace_bind; [repeat constructor |]. intros hs _.
  apply Forall_trace_bind; [apply Forall_trace_nil, select_layers_trace |].
  intros sel _.
  apply Forall_trace_bind; [| intros; constructor].
  apply Forall_trace_mapM. intros h.
  apply Forall_trace_nil, layer_embedding_trace.
Qed.

Lemma embed_whole_body_events (text : string) :
  Forall (body_event return_tokens device device_num)
    (trace (embed_whole tok model layers return_tokens device device_num text)).
Proof.
  unfold embed_whole.
  apply Forall_trace_bind; [repeat constructor |]. intros ids _.
  apply Forall_trace_bind.
  { destruct return_tokens eqn:Hrt; [| constructor].
    apply Forall_trace_bind; [repeat constructor | intros; constructor]. }
  intros toks _.
  apply Forall_trace_bind.
  { destruct (String.eqb_spec device "cpu") as [E | NE]; cbn [negb];
      [constructor | repeat constructor; assumption]. }
  intros _ _.
  apply Forall_trace_bind; [repeat constructor |]. intros hs _.
  apply Forall_trace_bind; [apply Forall_trace_nil, select_layers_trace |].
  intros; constructor.
Qed.

Lemma embed_text_string_events (text : string) :
  Forall (body_event return_tokens device device_num)
    (trace (embed_text_string T tok model layers return_tokens max_token_to_sentence
              device device_num model_max_length text)).
Proof.
  unfold embed_text_string.
  destruct (Py.len text >? max_token_to_sentence * 4);
    [apply embed_sentences_events | apply embed_whole_body_events].
Qed.

Lemma embed_loop_events (texts : list string) :
  forall all_embs all_toks,
    Forall (body_event return_tokens device device_num)
      (trace (embed_loop T tok model layers return_tokens max_token_to_sentence
                device device_num model_max_length texts all_embs all_toks)).
Proof.
  induction texts as [| text texts IH]; intros all_embs all_toks; cbn [embed_loop].
  - constructor.
  - apply Forall_trace_bind; [apply embed_text_string_events |].
    intros r _. apply IH.
Qed.

End CallEvents.

Section CallEventsWhole.

Context {scalar config : Type} (T : toolkit scalar config).

Lemma embedding_call_events
    (text_strings : text_arg) (model : string) (layers : layers_arg)
    (return_tokens : bool) (max_token_to_sentence : Z) (device : string)
    (tokenizer_parallelism : bool) (model_max_length : option Z)
    (logging_level : string) :
  Forall (call_event return_tokens (result (get_device (cuda T) device)))
    (trace (hgTransformerGetEmbedding T text_strings model layers return_tokens
              max_token_to_sentence device tokenizer_parallelism model_max_length
              logging_level)).
Proof.
  assert (Hsetup : forall tr, Forall setup_event tr ->
            Forall (call_event return_tokens (result (get_device (cuda T) device))) tr).
  { intros tr H. eapply Forall_impl; [| exact H]. intros ev Hev. left. exact Hev. }
  unfold hgTransformerGetEmbedding.
  apply Forall_trace_bind; [apply Hsetup, set_logging_level_events |]. intros _ _.
  apply Forall_trace_bind; [apply Hsetup, set_tokenizer_parallelism_events |].
  intros _ _.
  apply Forall_trace_bind; [apply Hsetup, get_device_events |].
  intros [d n] Hdev. cbv beta iota zeta.
  destruct (get_device_normal _ _ _ _ Hdev) as [Hk [Hl _]].
  rewrite (known_prefix_true _ Hk), Hl, bind_ret.
  apply Forall_trace_bind.
  { eapply Forall_impl; [| apply get_model_events].
    intros ev [Hev | Hev]; [right; left | left]; exact Hev. }
  intros [[c tk] tm] _. cbv beta iota.
  pose proof (get_device_resolved_run _ _ _ _ Hdev) as Hrun.
  apply Forall_trace_bind; [rewrite Hrun; constructor |].
  intros [d' n'] Hdev'. rewrite Hrun in Hdev'. injection Hdev' as <- <-.
  cbv beta iota.
  apply Forall_trace_bind.
  { destruct (String.eqb_spec d "cpu") as [E | NE]; cbn [negb]; [constructor |].
    constructor; [| constructor]. unfold call_event.
    right. right. rewrite Hdev. left. split; [exact NE | reflexivity]. }
  intros _ _. cbv zeta.
  apply Forall_trace_bind.
  { eapply Forall_impl; [| apply embed_loop_events].
    intros ev Hev. unfold call_event. right. right. rewrite Hdev. right. exact Hev. }
  intros [all_embs all_toks] _. destruct return_tokens; constructor.
Qed.

(** X10: whatever a call of hgTransformerGetEmbedding moves, it moves to
    the index its device resolved to: the model to [cuda:n], the input
    tensors to [n], and only under a resolved name other than [cpu]; where
    torch reports no CUDA nothing is moved at all. *)
Theorem transfers_follow_resolution
    (text_strings : text_arg) (model : string) (layers : layers_arg)
    (return_tokens : bool) (max_token_to_sentence : Z) (device : string)
    (tokenizer_parallelism : bool) (model_max_length : option Z)
    (logging_level : string) :
  (forall ev,
     In ev (trace (hgTransformerGetEmbedding T text_strings model layers return_tokens
                     max_token_to_sentence device tokenizer_parallelism
                     model_max_length logging_level)) ->
     is_transfer ev = true ->
     exists d n,
       result (get_device (cuda T) device) = Ret (d, n) /\ d <> "cpu" /\
       (ev = EvModelTo ("cuda:" ++ Py.str_of_Z n) \/ ev = EvTensorTo n)) /\
  (is_available (cuda T) = false ->
   filter is_transfer
     (trace (hgTransformerGetEmbedding T text_strings model layers return_tokens
               max_token_to_sentence device tokenizer_parallelism
               model_max_length logging_level)) = []).
Proof.
  pose proof (embedding_call_events text_strings model layers return_tokens
                max_token_to_sentence device tokenizer_parallelism model_max_length
                logging_level) as Hall.
  assert (Hmoves : forall ev,
     In ev (trace (hgTransformerGetEmbedding T text_strings model layers return_tokens
                     max_token_to_sentence device tokenizer_parallelism
                     model_max_length logging_level)) ->
     is_transfer ev = true ->
     exists d n,
       result (get_device (cuda T) device) = Ret (d, n) /\ d <> "cpu" /\
       (ev = EvModelTo ("cuda:" ++ Py.str_of_Z n) \/ ev = EvTensorTo n)).
  { intros ev Hin Ht. rewrite Forall_forall in Hall. specialize (Hall ev Hin).
    destruct Hall as [Hs | [Hl | Hr]].
    - rewrite (setup_not_transfer _ Hs) in Ht. discriminate.
    - destruct ev; discriminate.
    - destruct (result (get_device (cuda T) device)) as [[d n] |]; [| contradiction].
      exists d, n. split; [reflexivity |].
      destruct Hr as [[Hd ->] | Hb]; [auto |].
      destruct ev; simpl in Ht; try discriminate; simpl in Hb; try contradiction.
      destruct Hb as [Hd ->]. auto. }
  split; [exact Hmoves |].
  intros Ha.
  destruct (filter is_transfer _) as [| ev tr] eqn:E; [reflexivity |].
  assert (Hin : In ev (filter is_transfer
     (trace (hgTransformerGetEmbedding T text_strings model layers return_tokens
               max_token_to_sentence device tokenizer_parallelism
               model_max_length logging_level)))) by (rewrite E; left; reflexivity).
  apply filter_In in Hin as [Hin Ht].
  destruct (Hmoves ev Hin Ht) as [d [n [Hdev [Hd _]]]].
  rewrite (get_device_no_cuda _ _ Ha) in Hdev. injection Hdev as <- _.
  contradiction.
Qed.

(** X11: without [return_tokens] no call of hgTransformerGetEmbedding ever
    asks the tokenizer to convert ids to tokens. *)
Theorem no_conversion_unless_asked
    (text_strings : text_arg) (model : string) (layers : layers_arg)
    (max_token_to_sentence : Z) (device : string)
    (tokenizer_parallelism : bool) (model_max_length : option Z)
    (logging_level : string) :
  filter is_convert_ids
    (trace (hgTransformerGetEmbedding T text_strings model layers false
              max_token_to_sentence device tokenizer_parallelism
              model_max_length logging_level)) = [].
Proof.
  eapply filter_none; [apply embedding_call_events |].
  intros ev [Hs | [Hl | Hr]].
  - apply setup_not_convert. exact Hs.
  - destruct ev; try discriminate; reflexivity.
  - destruct (result (get_device (cuda T) device)) as [[d n] |]; [| contradiction].
    destruct Hr as [[_ ->] | Hb]; [reflexivity |].
    destruct ev; simpl in Hb; try contradiction; try reflexivity. discriminate.
Qed.

End CallEventsWhole.

Lemma transfers_follow_resolution_witness :
  filter is_transfer
    (trace (hgTransformerGetEmbedding (Toy.kit Toy.no_gpu false)
              (OneText Toy.long_text) "bert-base-uncased" LayersAll true 4 "gpu:0"
              false None "warning")) = [].
Proof.
  apply (proj2 (transfers_follow_resolution (Toy.kit Toy.no_gpu false)
                  (OneText Toy.long_text) "bert-base-uncased" LayersAll true 4 "gpu:0"
                  false None "warning")).
  reflexivity.
Defined.

(** ** hgTransformerGetEmbedding: what a returned result tells *)

Lemma result_bind_inv {A B} (m : M A) (f : A -> M B) (b : B) :
  result (bind m f) = Ret b ->
  exists a, result m = Ret a /\ result (f a) = Ret b.
Proof.
  rewrite result_bind. destruct (result m) as [a | e]; [| discriminate].
  intros H. exists a. split; [reflexivity | exact H].
Qed.

Lemma collected_tokens_app {A} (rs1 rs2 : list (A * option (list string))) :
  collected_tokens (rs1 ++ rs2) = (collected_tokens rs1 ++ collected_tokens rs2)%list.
Proof. unfold collected_tokens. apply flat_map_app. Qed.

Section CallResults.

Context {scalar config : Type} (T : toolkit scalar config).

Section BodyResults.

Variables (tok : tokenizer) (model : transformer scalar).
Variables (layers : option (list Z)) (return_tokens : bool) (max_token_to_sentence : Z).
Variables (device : string) (device_num : Z) (model_max_length : option Z).

(** A token list comes back exactly when tokens are asked for. *)
Lemma body_tokens_flag (text : string) (emb : embedding scalar)
    (otoks : option (list string)) :
  result (embed_text_string T tok model layers return_tokens max_token_to_sentence
            device device_num model_max_length text) = Ret (emb, otoks) ->
  (if return_tokens then exists toks, otoks = Some toks else otoks = None).
Proof.
  unfold embed_text_string.
  destruct (Py.len text >? max_token_to_sentence * 4).
  - unfold embed_sentences. intros H.
    apply result_bind_inv in H as [sentences [_ H]].
    apply result_bind_inv in H as [batch [_ H]].
    apply result_bind_inv in H as [input_ids [_ H]].
    apply result_bind_inv in H as [attention_mask [_ H]].
    apply result_bind_inv in H as [[] [_ H]].
    apply result_bind_inv in H as [tokens [Ht H]].
    apply result_bind_inv in H as [hs [_ H]].
    apply result_bind_inv in H as [sel [_ H]].
    apply result_bind_inv in H as [se [_ H]].
    injection H as _ <-.
    destruct return_tokens.
    + apply result_bind_inv in Ht as [parts [_ Ht]]. injection Ht as <-. eauto.
    + injection Ht as <-. reflexivity.
  - unfold embed_whole. intros H.
    apply result_bind_inv in H as [input_ids [_ H]].
    apply result_bind_inv in H as [tokens [Ht H]].
    apply result_bind_inv in H as [[] [_ H]].
    apply result_bind_inv in H as [hs [_ H]].
    apply result_bind_inv in H as [sel [_ H]].
    injection H as _ <-.
    destruct return_tokens.
    + apply result_bind_inv in Ht as [toks [_ Ht]]. injection Ht as <-. eauto.
    + injection Ht as <-. reflexivity.
Qed.

Lemma embed_loop_inv (texts : list string) :
  forall all_embs all_toks embs toks,
    result (embed_loop T tok model layers return_tokens max_token_to_sentence
              device device_num model_max_length texts all_embs all_toks) =
      Ret (embs, toks) ->
    exists rs,
      Forall2 (fun text r =>
                 result (embed_text_string T tok model layers return_tokens
                           max_token_to_sentence device device_num
                           model_max_length text) = Ret r) texts rs /\
      embs = (all_embs ++ map fst rs)%list /\
      toks = (all_toks ++ collected_tokens rs)%list.
Proof.
  induction texts as [| text texts IH]; intros all_embs all_toks embs toks H;
    cbn [embed_loop] in H.
  - injection H as <- <-. exists []. rewrite !app_nil_r. repeat split. constructor.
  - apply result_bind_inv in H as [r [Hr H]].
    apply IH in H as [rs [Hrs [-> ->]]].
    exists (r :: rs). split; [constructor; assumption |].
    unfold collected_tokens. cbn [map flat_map].
    destruct (snd r); rewrite <- ?app_assoc; split; reflexivity.
Qed.

Lemma embed_loop_raises (pre post : list string) (text : string)
    (rs : list (embedding scalar * option (list string))) (e : exn) :
  Forall2 (fun text r =>
             result (embed_text_string T tok model layers return_tokens
                       max_token_to_sentence device device_num
                       model_max_length text) = Ret r) pre rs ->
  result (embed_text_string T tok model layers return_tokens max_token_to_sentence
            device device_num model_max_length text) = Raise e ->
  forall all_embs all_toks,
    result (embed_loop T tok model layers return_tokens max_token_to_sentence
              device device_num model_max_length (pre ++ text :: post)
              all_embs all_toks) = Raise e.
Proof.
  intros Hpre He. induction Hpre as [| t r pre rs Hr _ IH];
    intros all_embs all_toks; cbn [app embed_loop].
  - rewrite result_bind, He. reflexivity.
  - eapply result_bind_ret; [exact Hr |]. apply IH.
Qed.

Lemma collected_tokens_all (rs : list (embedding scalar * option (list string)))
    (texts : list string) :
  Forall2 (fun text r =>
             result (embed_text_string T tok model layers return_tokens
                       max_token_to_sentence device device_num
                       model_max_length text) = Ret r) texts rs ->
  List.length rs = List.length texts /\
  List.length (collected_tokens rs) = (if return_tokens then List.length texts else 0%nat).
Proof.
  induction 1 as [| text [emb otoks] texts rs Hr _ [IH1 IH2]].
  - destruct return_tokens; split; reflexivity.
  - apply body_tokens_flag in Hr. unfold collected_tokens in *.
    cbn [flat_map snd List.length]. rewrite IH1, length_app, IH2.
    destruct return_tokens.
    + destruct Hr as [toks ->]. split; reflexivity.
    + rewrite Hr. split; reflexivity.
Qed.

End BodyResults.

Variables (text_strings : text_arg) (model : string) (layers : layers_arg).
Variables (return_tokens : bool) (max_token_to_sentence : Z) (device : string).
Variables (tokenizer_parallelism : bool) (model_max_length : option Z).
Variable logging_level : string.

Lemma embedding_call_inv (r : embedding_result scalar) :
  result (hgTransformerGetEmbedding T text_strings model layers return_tokens
            max_token_to_sentence device tokenizer_parallelism model_max_length
            logging_level) = Ret r ->
  exists d n c tok tm rs,
    result (get_device (cuda T) device) = Ret (d, n) /\
    result (get_model T model) = Ret (c, tok, tm) /\
    Forall2 (fun text r =>
               result (embed_text_string T tok tm (as_layer_list layers) return_tokens
                         max_token_to_sentence d n model_max_length text) = Ret r)
            (as_list text_strings) rs /\
    r = (if return_tokens then EmbeddingsAndTokens (map fst rs) (collected_tokens rs)
         else EmbeddingsOnly (map fst rs)).
Proof.
  unfold hgTransformerGetEmbedding. intros H.
  apply result_bind_inv in H as [[] [_ H]].
  apply result_bind_inv in H as [[] [_ H]].
  apply result_bind_inv in H as [[d n] [Hdev H]]. cbv beta iota zeta in H.
  destruct (get_device_normal _ _ _ _ Hdev) as [Hk [Hl Hagain]].
  rewrite (known_prefix_true _ Hk), Hl, bind_ret in H.
  apply result_bind_inv in H as [[[c tok] tm] [Hmodel H]]. cbv beta iota in H.
  apply result_bind_inv in H as [[d' n'] [Hdev' H]].
  rewrite Hagain in Hdev'. injection Hdev' as <- <-. cbv beta iota in H.
  apply result_bind_inv in H as [[] [_ H]]. cbv zeta in H.
  apply result_bind_inv in H as [[embs toks] [Hloop H]].
  apply embed_loop_inv in Hloop as [rs [Hrs [-> ->]]]. cbn [app] in H.
  exists d, n, c, tok, tm, rs. repeat split; try assumption.
  destruct return_tokens; injection H as <-; reflexivity.
Qed.

(** X12: a result of hgTransformerGetEmbedding has one embedding per input
    string, and carries token lists exactly when they were asked for: then
    one token list per input string. *)
Theorem embedding_results_parallel (r : embedding_result scalar) :
  result (hgTransformerGetEmbedding T text_strings model layers return_tokens
            max_token_to_sentence device tokenizer_parallelism model_max_length
            logging_level) = Ret r ->
  match r with
  | EmbeddingsAndTokens all_embs all_toks =>
      return_tokens = true /\
      List.length all_embs = List.length (as_list text_strings) /\
      List.length all_toks = List.length (as_list text_strings)
  | EmbeddingsOnly all_embs =>
      return_tokens = false /\
      List.length all_embs = List.length (as_list text_strings)
  end.
Proof.
  intros H. apply embedding_call_inv in H
    as [d [n [c [tok [tm [rs [_ [_ [Hrs ->]]]]]]]]].
  destruct (collected_tokens_all _ _ _ _ _ _ _ _ _ _ Hrs) as [H1 H2].
  destruct return_tokens; rewrite length_map; auto.
Qed.

(** X13: when the processing of one input string raises, the call raises
    the same exception: the strings before it give no partial result. *)
Theorem no_partial_results
    (d : string) (n : Z) (c : config) (tok : tokenizer) (tm : transformer scalar)
    (pre post : list string) (text : string)
    (rs : list (embedding scalar * option (list string))) (e : exn) :
  result (get_device (cuda T) device) = Ret (d, n) ->
  result (get_model T model) = Ret (c, tok, tm) ->
  as_list text_strings = (pre ++ text :: post)%list ->
  Forall2 (fun text r =>
             result (embed_text_string T tok tm (as_layer_list layers) return_tokens
                       max_token_to_sentence d n model_max_length text) = Ret r)
          pre rs ->
  result (embed_text_string T tok tm (as_layer_list layers) return_tokens
            max_token_to_sentence d n model_max_length text) = Raise e ->
  result (hgTransformerGetEmbedding T text_strings model layers return_tokens
            max_token_to_sentence device tokenizer_parallelism model_max_length
            logging_level) = Raise e.
Proof.
  intros Hdev Hmodel Hlist Hpre He.
  destruct (get_device_normal _ _ _ _ Hdev) as [Hk [Hl Hagain]].
  unfold hgTransformerGetEmbedding.
  eapply result_bind_ret; [apply set_logging_level_returns |].
  eapply result_bind_ret; [apply set_tokenizer_parallelism_returns |].
  eapply result_bind_ret; [exact Hdev |]. cbv beta iota zeta.
  rewrite (known_prefix_true _ Hk), Hl, bind_ret.
  eapply result_bind_ret; [exact Hmodel |]. cbv beta iota.
  eapply result_bind_ret; [exact Hagain |]. cbv beta iota.
  eapply result_bind_ret.
  { instantiate (1 := tt). destruct (negb (d =? "cpu")%string); reflexivity. }
  cbv zeta. rewrite result_bind, Hlist.
  rewrite (embed_loop_raises _ _ _ _ _ _ _ _ _ _ _ _ _ Hpre He). reflexivity.
Qed.

End CallResults.

Section CallComposition.

Context {scalar config : Type} (T : toolkit scalar config).

Variables (model : string) (layers : layers_arg).
Variables (return_tokens : bool) (max_token_to_sentence : Z) (device : string).
Variables (tokenizer_parallelism : bool) (model_max_length : option Z).
Variable logging_level : string.

(** X14: input strings are processed one by one, in order and without
    regard to their neighbours: when the calls on two lists return, the
    call on the two lists joined returns the two results joined; and a
    single string is the list of that string. *)
Theorem embedding_batches_compose (l1 l2 : list string)
    (r1 r2 : embedding_result scalar) :
  result (hgTransformerGetEmbedding T (TextList l1) model layers return_tokens
            max_token_to_sentence device tokenizer_parallelism model_max_length
            logging_level) = Ret r1 ->
  result (hgTransformerGetEmbedding T (TextList l2) model layers return_tokens
            max_token_to_sentence device tokenizer_parallelism model_max_length
            logging_level) = Ret r2 ->
  result (hgTransformerGetEmbedding T (TextList (l1 ++ l2)) model layers return_tokens
            max_token_to_sentence device tokenizer_parallelism model_max_length
            logging_level) = Ret (join_results r1 r2) /\
  forall s,
    hgTransformerGetEmbedding T (OneText s) model layers return_tokens
      max_token_to_sentence device tokenizer_parallelism model_max_length
      logging_level =
    hgTransformerGetEmbedding T (TextList [s]) model layers return_tokens
      max_token_to_sentence device tokenizer_parallelism model_max_length
      logging_level.
Proof.
  intros H1 H2. split; [| reflexivity].
  apply embedding_call_inv in H1
    as [d [n [c [tok [tm [rs1 [Hdev [Hmodel [Hrs1 ->]]]]]]]]].
  apply embedding_call_inv in H2
    as [d' [n' [c' [tok' [tm' [rs2 [Hdev' [Hmodel' [Hrs2 ->]]]]]]]]].
  rewrite Hdev in Hdev'. injection Hdev' as <- <-.
  rewrite Hmodel in Hmodel'. injection Hmodel' as <- <- <-.
  cbn [as_list] in *.
  rewrite (embedding_call_collects T (TextList (l1 ++ l2)) model layers return_tokens
             max_token_to_sentence device tokenizer_parallelism model_max_length
             logging_level d n c tok tm (rs1 ++ rs2) Hdev Hmodel
             (Forall2_app Hrs1 Hrs2)).
  rewrite map_app, collected_tokens_app.
  destruct return_tokens; reflexivity.
Qed.

(** X15: when loading the model raises, the call raises the same exception
    after nothing but the setting up, the device resolution and the
    attempted load; no tokenizer, model or device transfer is touched. *)
Theorem embedding_model_failure (text_strings : text_arg) (d : string) (n : Z)
    (e : exn) :
  result (get_device (cuda T) device) = Ret (d, n) ->
  result (get_model T model) = Raise e ->
  hgTransformerGetEmbedding T text_strings model layers return_tokens
    max_token_to_sentence device tokenizer_parallelism model_max_length
    logging_level =
  ((trace (set_logging_level logging_level) ++
    trace (set_tokenizer_parallelism tokenizer_parallelism) ++
    trace (get_device (cuda T) device) ++
    trace (get_model T model))%list,
   Raise e).
Proof.
  intros Hdev Hmodel.
  destruct (get_device_normal _ _ _ _ Hdev) as [Hk [Hl _]].
  rewrite <- (run_eta (hgTransformerGetEmbedding _ _ _ _ _ _ _ _ _ _)).
  unfold hgTransformerGetEmbedding.
  rewrite ?result_bind, ?trace_bind.
  rewrite set_logging_level_returns. cbv beta iota.
  rewrite ?result_bind, ?trace_bind.
  rewrite set_tokenizer_parallelism_returns. cbv beta iota.
  rewrite ?result_bind, ?trace_bind.
  rewrite Hdev. cbv beta iota zeta.
  rewrite (known_prefix_true _ Hk), Hl, !bind_ret.
  rewrite ?result_bind, ?trace_bind. rewrite Hmodel. reflexivity.
Qed.

(** X16: on the empty list the device is still resolved, the model still
    loaded and, on an accelerator, still moved, but nothing is tokenized
    or run, and the result is empty. *)
Theorem embedding_of_no_text (d : string) (n : Z) (c : config) (tok : tokenizer)
    (tm : transformer scalar) :
  result (get_device (cuda T) device) = Ret (d, n) ->
  result (get_model T model) = Ret (c, tok, tm) ->
  hgTransformerGetEmbedding T (TextList []) model layers return_tokens
    max_token_to_sentence device tokenizer_parallelism model_max_length
    logging_level =
  ((trace (set_logging_level logging_level) ++
    trace (set_tokenizer_parallelism tokenizer_parallelism) ++
    trace (get_device (cuda T) device) ++
    trace (get_model T model) ++
    (if (d =? "cpu")%string then [] else [EvModelTo ("cuda:" ++ Py.str_of_Z n)]))%list,
   Ret (if return_tokens then EmbeddingsAndTokens [] [] else EmbeddingsOnly [])).
Proof.
  intros Hdev Hmodel.
  destruct (get_device_normal _ _ _ _ Hdev) as [Hk [Hl _]].
  pose proof (get_device_resolved_run _ _ _ _ Hdev) as Hrun.
  rewrite <- (run_eta (hgTransformerGetEmbedding _ _ _ _ _ _ _ _ _ _)).
  unfold hgTransformerGetEmbedding.
  rewrite ?result_bind, ?trace_bind.
  rewrite set_logging_level_returns. cbv beta iota.
  rewrite ?result_bind, ?trace_bind.
  rewrite set_tokenizer_parallelism_returns. cbv beta iota.
  rewrite ?result_bind, ?trace_bind.
  rewrite Hdev. cbv beta iota zeta.
  rewrite (known_prefix_true _ Hk), Hl, !bind_ret.
  rewrite ?result_bind, ?trace_bind. rewrite Hmodel. cbv beta iota.
  rewrite ?result_bind, ?trace_bind. rewrite Hrun.
  cbn [result snd trace fst]. cbv beta iota.
  rewrite ?result_bind, ?trace_bind.
  destruct (d =? "cpu")%string; cbn [negb];
    cbn [emit ret result snd trace fst as_list embed_loop app];
    destruct return_tokens; cbn [ret result snd trace fst app];
    rewrite ?app_nil_r; reflexivity.
Qed.

End CallComposition.

(** ** Layer selection, ragged batches and the bounds of the mask *)

Lemma getitem_in_range {A} (l : list A) (i : Z) (dflt : A) :
  - Z.of_nat (List.length l) <= i < Z.of_nat (List.length l) ->
  Py.getitem l i =
  Some (nth (Z.to_nat (if i <? 0 then Z.of_nat (List.length l) + i else i)) l dflt).
Proof.
  intros Hi. unfold Py.getitem.
  destruct (Z.ltb_spec i 0) as [Hneg | Hpos].
  - replace (0 <=? i) with false by (symmetry; apply Z.leb_gt; lia).
    cbn [andb].
    replace (- Z.of_nat (List.length l) <=? i) with true
      by (symmetry; apply Z.leb_le; lia).
    cbn [andb]. apply nth_error_nth'. lia.
  - replace (0 <=? i) with true by (symmetry; apply Z.leb_le; lia).
    replace (i <? Z.of_nat (List.length l)) with true
      by (symmetry; apply Z.ltb_lt; lia).
    cbn [andb]. apply nth_error_nth'. lia.
Qed.

Lemma getitem_out_of_range {A} (l : list A) (i : Z) :
  i < - Z.of_nat (List.length l) \/ Z.of_nat (List.length l) <= i ->
  Py.getitem l i = None.
Proof.
  intros Hi. unfold Py.getitem.
  destruct (Z.leb_spec 0 i), (Z.ltb_spec i (Z.of_nat (List.length l)));
    cbn [andb]; try lia;
    destruct (Z.leb_spec (- Z.of_nat (List.length l)) i), (Z.ltb_spec i 0);
    cbn [andb]; try lia; reflexivity.
Qed.

Section Layers.

Context {scalar : Type}.

(** X17: an explicit list of layers gives the hidden states at those
    indices in the order asked, repeats included, a negative index counting
    from the last layer; one index outside the layers the model returned
    makes the selection raise IndexError; ['all'] gives every layer. *)
Theorem requested_layers (ls : list Z) (hs : list (tensor3 scalar)) :
  (Forall (fun l => - Z.of_nat (List.length hs) <= l < Z.of_nat (List.length hs)) ls ->
   select_layers (Some ls) hs =
     ([], Ret (map (fun l =>
                      nth (Z.to_nat (if l <? 0 then Z.of_nat (List.length hs) + l else l))
                          hs [])
                   ls))) /\
  (Exists (fun l => l < - Z.of_nat (List.length hs) \/ Z.of_nat (List.length hs) <= l) ls ->
   select_layers (Some ls) hs = ([], Raise IndexError)) /\
  select_layers None hs = ([], Ret hs).
Proof.
  split; [| split; [| reflexivity]].
  - intros Hall. unfold select_layers. apply mapM_silent.
    intros l Hl. rewrite Forall_forall in Hall.
    rewrite (getitem_in_range hs l [] (Hall l Hl)). reflexivity.
  - intros Hex. rewrite <- (run_eta (select_layers _ _)), select_layers_trace.
    f_equal. unfold select_layers.
    induction ls as [| l ls IH]; [inversion Hex |].
    cbn [mapM]. rewrite result_bind.
    destruct (Py.getitem hs l) as [h |] eqn:E; [| reflexivity].
    cbn [of_option ret result snd]. rewrite result_bind.
    inversion Hex as [? ? Hl | ? ? Hrest]; subst.
    + rewrite (getitem_out_of_range _ _ Hl) in E. discriminate.
    + rewrite (IH Hrest). reflexivity.
Qed.

(** X18: line 288 reads the mask at every position of the hidden states.
    Where a sentence of the hidden states is no longer than its mask row,
    the positions of positive mask are kept and the rest of the mask row
    is not looked at; where it is longer, or where a sentence that is not
    empty has no mask row, the filter raises IndexError. *)
Theorem mask_bounds (attention_mask : list (list Z)) (m : nat)
    (sentence : list (vector scalar)) :
  (forall mrow,
     nth_error attention_mask m = Some mrow ->
     (List.length sentence <= List.length mrow)%nat ->
     result (keep_unmasked attention_mask m sentence) = Ret (masked_row mrow sentence)) /\
  (forall mrow,
     nth_error attention_mask m = Some mrow ->
     (List.length mrow < List.length sentence)%nat ->
     result (keep_unmasked attention_mask m sentence) = Raise IndexError) /\
  (nth_error attention_mask m = None ->
   sentence <> [] ->
   result (keep_unmasked attention_mask m sentence) = Raise IndexError).
Proof.
  split; [| split].
  - intros mrow Hm Hlen. rewrite (keep_unmasked_spec _ _ _ _ Hm Hlen). reflexivity.
  - intros mrow Hm Hlen. unfold keep_unmasked, enumerate. rewrite result_bind.
    assert (H : forall (s : list (vector scalar)) (k : nat),
              (k <= List.length mrow)%nat ->
              (List.length mrow < k + List.length s)%nat ->
              result (mapM (fun '(ii, tok) =>
                              a <- mask_at attention_mask m ii ;;
                              ret (if a >? 0 then [tok] else []))
                           (combine (seq k (List.length s)) s)) = Raise IndexError).
    { induction s as [| tok s IH]; intros k Hk Hs; cbn [List.length] in *; [lia |].
      cbn [seq combine mapM]. rewrite result_bind.
      unfold mask_at at 1. rewrite Hm. cbn [of_option]. rewrite bind_ret.
      destruct (nth_error mrow k) as [a |] eqn:E.
      - cbn [of_option]. rewrite bind_ret. cbn [ret result snd].
        rewrite result_bind.
        assert (k < List.length mrow)%nat by (apply nth_error_Some; congruence).
        rewrite IH by lia. reflexivity.
      - reflexivity. }
    rewrite (H sentence 0%nat) by lia. reflexivity.
  - intros Hm Hs. destruct sentence as [| tok s]; [contradiction |].
    unfold keep_unmasked, enumerate. rewrite result_bind.
    cbn [List.length seq combine mapM]. rewrite result_bind.
    unfold mask_at at 1. rewrite Hm. reflexivity.
Qed.

End Layers.

Section Ragged.

Context {scalar config : Type} (T : toolkit scalar config).

Variables (tok : tokenizer) (model : transformer scalar).
Variables (layers : option (list Z)) (return_tokens : bool) (max_token_to_sentence : Z).
Variables (device : string) (device_num : Z) (model_max_length : option Z).

(** X19: when the tokenizer answers a long text with rows of different
    lengths, for the ids or for the mask, the run ends in ValueError right
    after the tokenizer call: nothing is moved, converted or fed to the
    model. *)
Theorem ragged_batch_raises (text : string) (sentences : list string)
    (ids mask : list (list Z)) :
  max_token_to_sentence * 4 < Py.len text ->
  sent_tokenize T text = Ret sentences ->
  tokenize_batch tok sentences (batch_kwargs model_max_length) = Ret (ids, mask) ->
  rectangular ids && rectangular mask = false ->
  embed_text_string T tok model layers return_tokens max_token_to_sentence
    device device_num model_max_length text =
  ([EvSentTokenize text; EvTokenizerCall sentences (batch_kwargs model_max_length)],
   Raise ValueError).
Proof.
  intros Hlong Hsent Hbatch Hrag. apply Z.gtb_lt in Hlong.
  unfold embed_text_string. rewrite Hlong.
  rewrite <- (run_eta (embed_sentences _ _ _ _ _ _ _ _ _)).
  unfold embed_sentences, torch_tensor.
  rewrite ?result_bind, ?trace_bind.
  cbn [call result snd trace fst]. rewrite Hsent. cbv beta iota.
  rewrite ?result_bind, ?trace_bind.
  cbn [call result snd trace fst]. rewrite Hbatch. cbv beta iota.
  cbn [fst snd].
  rewrite ?result_bind, ?trace_bind.
  destruct (rectangular ids); [| reflexivity].
  cbn [andb] in Hrag. rewrite Hrag.
  cbn [ret raise result snd trace fst app]. cbv beta iota.
  rewrite ?result_bind, ?trace_bind.
  reflexivity.
Qed.

(** X20: the token list returned for a long text never holds a token
    spelled [[PAD]]. *)
Theorem long_text_tokens_without_pad (text : string) (emb : embedding scalar)
    (toks : list string) :
  max_token_to_sentence * 4 < Py.len text ->
  result (embed_text_string T tok model layers return_tokens max_token_to_sentence
            device device_num model_max_length text) = Ret (emb, Some toks) ->
  ~ In "[PAD]" toks.
Proof.
  intros Hlong H. apply Z.gtb_lt in Hlong.
  unfold embed_text_string in H. rewrite Hlong in H. unfold embed_sentences in H.
  apply result_bind_inv in H as [sentences [_ H]].
  apply result_bind_inv in H as [batch [_ H]].
  apply result_bind_inv in H as [input_ids [_ H]].
  apply result_bind_inv in H as [attention_mask [_ H]].
  apply result_bind_inv in H as [[] [_ H]].
  apply result_bind_inv in H as [tokens [Ht H]].
  apply result_bind_inv in H as [hs [_ H]].
  apply result_bind_inv in H as [sel [_ H]].
  apply result_bind_inv in H as [se [_ H]].
  injection H as _ ->.
  destruct return_tokens; [| discriminate].
  apply result_bind_inv in Ht as [parts [Hparts Ht]]. injection Ht as <-.
  apply mapM_result in Hparts.
  intros Hin. apply in_concat in Hin as [part [Hpart Hin]].
  clear - Hparts Hpart Hin.
  induction Hparts as [| row p rows parts Hp _ IH]; [contradiction |].
  destruct Hpart as [<- | Hpart]; [| apply IH; exact Hpart].
  apply result_bind_inv in Hp as [ts [_ Hp]]. injection Hp as <-.
  apply filter_In in Hin as [_ Hin]. discriminate.
Qed.

End Ragged.

(** ** The further properties on the concrete toolkit *)

Lemma embedding_results_parallel_witness :
  match Demo.both_result with
  | EmbeddingsAndTokens all_embs all_toks =>
      true = true /\
      List.length all_embs = List.length (as_list (TextList [Toy.short_text; Toy.long_text])) /\
      List.length all_toks = List.length (as_list (TextList [Toy.short_text; Toy.long_text]))
  | EmbeddingsOnly all_embs =>
      true = false /\
      List.length all_embs = List.length (as_list (TextList [Toy.short_text; Toy.long_text]))
  end.
Proof.
  apply (embedding_results_parallel (Toy.kit Toy.no_gpu false)
           (TextList [Toy.short_text; Toy.long_text])
           "bert-base-uncased" (LayerList [0; -1]) true 4 "cpu" false None "warning"
           Demo.both_result).
  vm_compute. reflexivity.
Defined.

Lemma no_partial_results_witness :
  result (hgTransformerGetEmbedding Demo.no_splitter
            (TextList [Toy.short_text; Toy.long_text]) "bert-base-uncased"
            LayersAll true 4 "cpu" false None "warning") =
  Raise (ToolkitError "punkt").
Proof.
  apply (no_partial_results Demo.no_splitter
           (TextList [Toy.short_text; Toy.long_text]) "bert-base-uncased"
           LayersAll true 4 "cpu" false None "warning"
           "cpu" (-1) tt (Toy.tokenizer_ "[PAD]") Toy.model
           [Toy.short_text] [] Toy.long_text
           [(Toy.short_hidden, Some Toy.short_tokens)] (ToolkitError "punkt")).
  - reflexivity.
  - reflexivity.
  - reflexivity.
  - constructor; [vm_compute; reflexivity | constructor].
  - vm_compute. reflexivity.
Defined.

Lemma embedding_batches_compose_witness :
  result (Demo.embed_call ([Toy.short_text] ++ [Toy.long_text])) =
    Ret (join_results Demo.short_result Demo.long_result) /\
  forall s,
    hgTransformerGetEmbedding (Toy.kit Toy.no_gpu false) (OneText s)
      "bert-base-uncased" (LayerList [0; -1]) true 4 "cpu" false None "warning" =
    hgTransformerGetEmbedding (Toy.kit Toy.no_gpu false) (TextList [s])
      "bert-base-uncased" (LayerList [0; -1]) true 4 "cpu" false None "warning".
Proof.
  apply (embedding_batches_compose (Toy.kit Toy.no_gpu false)
           "bert-base-uncased" (LayerList [0; -1]) true 4 "cpu" false None "warning"
           [Toy.short_text] [Toy.long_text] Demo.short_result Demo.long_result).
  - vm_compute. reflexivity.
  - vm_compute. reflexivity.
Defined.

Lemma embedding_model_failure_witness :
  hgTransformerGetEmbedding (Toy.kit Toy.no_gpu false) (OneText Toy.long_text)
    "nvidia/megatron-bert-cased-345m" LayersAll true 4 "cpu" false None "debug" =
  ((trace (set_logging_level "debug") ++
    trace (set_tokenizer_parallelism false) ++
    trace (get_device (cuda (Toy.kit Toy.no_gpu false)) "cpu") ++
    trace (get_model (Toy.kit Toy.no_gpu false) "nvidia/megatron-bert-cased-345m"))%list,
   Raise SystemExit).
Proof.
  apply (embedding_model_failure (Toy.kit Toy.no_gpu false)
           "nvidia/megatron-bert-cased-345m" LayersAll true 4 "cpu" false None "debug"
           (OneText Toy.long_text) "cpu" (-1) SystemExit).
  - reflexivity.
  - reflexivity.
Defined.

Lemma embedding_of_no_text_witness :
  hgTransformerGetEmbedding (Toy.kit Toy.one_gpu false) (TextList [])
    "bert-base-uncased" LayersAll true 4 "GPU" false None "warning" =
  ((trace (set_logging_level "warning") ++
    trace (set_tokenizer_parallelism false) ++
    trace (get_device (cuda (Toy.kit Toy.one_gpu false)) "GPU") ++
    trace (get_model (Toy.kit Toy.one_gpu false) "bert-base-uncased") ++
    (if ("gpu" =? "cpu")%string then [] else [EvModelTo ("cuda:" ++ Py.str_of_Z 0)]))%list,
   Ret (if true then EmbeddingsAndTokens [] [] else EmbeddingsOnly [])).
Proof.
  apply (embedding_of_no_text (Toy.kit Toy.one_gpu false)
           "bert-base-uncased" LayersAll true 4 "GPU" false None "warning"
           "gpu" 0 tt (Toy.tokenizer_ "[PAD]") Toy.model).
  - reflexivity.
  - reflexivity.
Defined.

Lemma requested_layers_witness :
  select_layers (Some [0; -1; 0]) Toy.hidden =
    ([], Ret (map (fun l =>
                     nth (Z.to_nat (if l <? 0
                                    then Z.of_nat (List.length Toy.hidden) + l else l))
                         Toy.hidden [])
                  [0; -1; 0])) /\
  select_layers (Some [0; 3]) Toy.hidden = ([], Raise IndexError).
Proof.
  split.
  - apply (proj1 (requested_layers [0; -1; 0] Toy.hidden)).
    repeat constructor; vm_compute; discriminate.
  - apply (proj1 (proj2 (requested_layers [0; 3] Toy.hidden))).
    right. left. right. vm_compute. discriminate.
Defined.

Lemma mask_bounds_witness :
  result (keep_unmasked [[1; 0; 1]] 0 [[10]; [20]]) = Ret (masked_row [1; 0; 1] [[10]; [20]]) /\
  result (keep_unmasked [[1; 0]] 0 [[10]; [20]; [30]]) = Raise IndexError /\
  result (keep_unmasked [[1; 0]] 1 [[10]]) = Raise IndexError.
Proof.
  split; [| split].
  - apply (proj1 (mask_bounds [[1; 0; 1]] 0 [[10]; [20]]) [1; 0; 1]).
    + reflexivity.
    + simpl. lia.
  - apply (proj1 (proj2 (mask_bounds [[1; 0]] 0 [[10]; [20]; [30]])) [1; 0]).
    + reflexivity.
    + simpl. lia.
  - apply (proj2 (proj2 (mask_bounds [[1; 0]] 1 [[10]]))).
    + reflexivity.
    + discriminate.
Defined.

Lemma ragged_batch_raises_witness :
  embed_text_string (Toy.kit Toy.no_gpu false) Demo.unpadded Toy.model None true 4
    "cpu" (-1) None Toy.long_text =
  ([EvSentTokenize Toy.long_text; EvTokenizerCall Toy.sentences (batch_kwargs None)],
   Raise ValueError).
Proof.
  apply (ragged_batch_raises (Toy.kit Toy.no_gpu false) Demo.unpadded Toy.model None
           true 4 "cpu" (-1) None Toy.long_text Toy.sentences
           Demo.unpadded_ids Demo.unpadded_mask).
  - reflexivity.
  - reflexivity.
  - reflexivity.
  - reflexivity.
Defined.

Lemma long_text_tokens_without_pad_witness : ~ In "[PAD]" Demo.long_tokens.
Proof.
  apply (long_text_tokens_without_pad (Toy.kit Toy.no_gpu false) (Toy.tokenizer_ "[PAD]")
           Toy.model None true 4 "cpu" (-1) None Toy.long_text
           Demo.long_entry Demo.long_tokens).
  - reflexivity.
  - vm_compute. reflexivity.
Defined.
